(** * The Color Temperature object of the BACnet stack

    A shallow embedding of [src/bacnet/basic/object/color_temperature.c]:
    the per-instance record, the keyed store [Object_List], the lifecycle
    functions (create, delete, cleanup, init), the property readers and
    writers, the name and description writes, the write-enabled flag, and
    the ReadProperty and WriteProperty handlers.  Left out are the two
    index lookups, which only forward to key list functions that are
    missing and change nothing.

    The C file keeps its state in file-level statics and in two device-wide
    services (the database revision counter and the object-name scan); here
    that state is one record, [device], threaded through every function.
    Unsigned 32-bit values are integers of [Z]; where the C code converts to
    [uint32_t] the wrap-around is written [to_uint32]. *)

From Stdlib Require Import ZArith Lia Bool Ascii String.
From stdpp Require Import gmap strings list fin_maps fin_sets sorting pretty.

Local Open Scope Z_scope.

(** ** Constants and enumerations (bacdef.h, bacenum.h, lighting.h) *)

(** Modelled from the spec: bacdef.h is missing.  Instance numbers run over
    0..4194302 and 4194303 is the wildcard sentinel. *)
Definition BACNET_MAX_INSTANCE : Z := 4194303.

(** Modelled from the spec: bacdef.h is missing.  The array index that
    stands for the whole property is the largest 32-bit number. *)
Definition BACNET_ARRAY_ALL : Z := 4294967295.

(** Modelled from the spec: bacdef.h is missing.  The failure sentinel of
    the handlers and the codec is negative. *)
Definition BACNET_STATUS_ERROR : Z := -1.

(** Modelled from the spec: bacdef.h is missing.  The priority of a write
    to a property that is not commandable. *)
Definition BACNET_NO_PRIORITY : Z := 0.

Definition to_uint32 (z : Z) : Z := z mod 2 ^ 32.

(** Modelled from the spec: bacenum.h is missing.  One constructor for
    every object type the C file or the device scan names, one for all the
    others.  Color and Color Temperature are two object types. *)
Inductive BACNET_OBJECT_TYPE :=
  | OBJECT_ANALOG_INPUT
  | OBJECT_DEVICE
  | OBJECT_COLOR
  | OBJECT_COLOR_TEMPERATURE
  | OBJECT_TYPE_OTHER (code : Z).

(** Modelled from the spec: bacenum.h is missing.  One constructor for
    every property identifier the C file names, one for all the others. *)
Inductive BACNET_PROPERTY_ID :=
  | PROP_OBJECT_IDENTIFIER
  | PROP_OBJECT_NAME
  | PROP_OBJECT_TYPE
  | PROP_PRESENT_VALUE
  | PROP_TRACKING_VALUE
  | PROP_COLOR_COMMAND
  | PROP_IN_PROGRESS
  | PROP_DEFAULT_COLOR_TEMPERATURE
  | PROP_DEFAULT_FADE_TIME
  | PROP_DEFAULT_RAMP_RATE
  | PROP_DEFAULT_STEP_INCREMENT
  | PROP_DESCRIPTION
  | PROP_TRANSITION
  | PROP_MIN_PRES_VALUE
  | PROP_MAX_PRES_VALUE
  | PROP_PRIORITY_ARRAY
  | PROP_EVENT_TIME_STAMPS
  | PROP_OTHER (code : Z).

(** Modelled from the spec: bacenum.h is missing.  The error classes of
    the error model. *)
Inductive BACNET_ERROR_CLASS :=
  | ERROR_CLASS_DEVICE
  | ERROR_CLASS_OBJECT
  | ERROR_CLASS_PROPERTY
  | ERROR_CLASS_RESOURCES
  | ERROR_CLASS_SECURITY
  | ERROR_CLASS_SERVICES
  | ERROR_CLASS_VT
  | ERROR_CLASS_COMMUNICATION.

(** Modelled from the spec: bacenum.h is missing.  The error codes of the
    error model that the handlers load. *)
Inductive BACNET_ERROR_CODE :=
  | ERROR_CODE_OTHER
  | ERROR_CODE_UNKNOWN_OBJECT
  | ERROR_CODE_UNKNOWN_PROPERTY
  | ERROR_CODE_WRITE_ACCESS_DENIED
  | ERROR_CODE_VALUE_OUT_OF_RANGE
  | ERROR_CODE_PROPERTY_IS_NOT_AN_ARRAY
  | ERROR_CODE_INVALID_DATA_TYPE.

#[global] Instance BACNET_OBJECT_TYPE_eq_dec : EqDecision BACNET_OBJECT_TYPE.
Proof. solve_decision. Defined.

#[global] Instance BACNET_PROPERTY_ID_eq_dec : EqDecision BACNET_PROPERTY_ID.
Proof. solve_decision. Defined.

#[global] Instance BACNET_ERROR_CLASS_eq_dec : EqDecision BACNET_ERROR_CLASS.
Proof. solve_decision. Defined.

#[global] Instance BACNET_ERROR_CODE_eq_dec : EqDecision BACNET_ERROR_CODE.
Proof. solve_decision. Defined.

(** Modelled from the spec: bacenum.h is missing.  The 10-bit code an
    object type has in an object identifier. *)
Definition object_type_code (t : BACNET_OBJECT_TYPE) : Z :=
  match t with
  | OBJECT_ANALOG_INPUT => 0
  | OBJECT_DEVICE => 8
  | OBJECT_COLOR => 63
  | OBJECT_COLOR_TEMPERATURE => 64
  | OBJECT_TYPE_OTHER code => code
  end.

(** Modelled from the spec: bacenum.h is missing.  Application tag numbers,
    as [uint8_t tag] holds them. *)
Definition BACNET_APPLICATION_TAG_BOOLEAN : Z := 1.

(** Modelled from the spec: bacenum.h is missing. *)
Definition BACNET_APPLICATION_TAG_UNSIGNED_INT : Z := 2.

(** Modelled from the spec: bacenum.h is missing. *)
Definition BACNET_APPLICATION_TAG_ENUMERATED : Z := 9.

(** Modelled from the spec: the enumerators of bacenum.h and lighting.h that
    the object stores at creation or returns for a missing instance. *)
Definition BACNET_COLOR_OPERATION_NONE : Z := 0.

(** Modelled from the spec: bacenum.h is missing. *)
Definition BACNET_COLOR_OPERATION_IN_PROGRESS_IDLE : Z := 0.

(** Modelled from the spec: bacenum.h is missing. *)
Definition BACNET_COLOR_OPERATION_IN_PROGRESS_MAX : Z := 5.

(** Modelled from the spec: bacenum.h is missing. *)
Definition BACNET_COLOR_TRANSITION_NONE : Z := 0.

(** ** The per-instance record *)

(** Modelled from the spec: lighting.h is missing.  Of the color command
    the object keeps, only the operation is set by this file. *)
Record BACNET_COLOR_COMMAND := {
  operation : Z
}.

Record object_data := {
  Changed : bool;
  Write_Enabled : bool;
  Present_Value : Z;
  Tracking_Value : Z;
  Color_Command : BACNET_COLOR_COMMAND;
  In_Progress : Z;
  Default_Color_Temperature : Z;
  Default_Fade_Time : Z;
  Default_Ramp_Rate : Z;
  Default_Step_Increment : Z;
  Transition : Z;
  Present_Value_Minimum : Z;
  Present_Value_Maximum : Z;
  Object_Name : option string;
  Description : option string
}.

(** Field assignments through [pObject]. *)
Definition set_Present_Value (value : Z) (p : object_data) : object_data :=
  {| Changed := Changed p; Write_Enabled := Write_Enabled p;
     Present_Value := value; Tracking_Value := Tracking_Value p;
     Color_Command := Color_Command p; In_Progress := In_Progress p;
     Default_Color_Temperature := Default_Color_Temperature p;
     Default_Fade_Time := Default_Fade_Time p;
     Default_Ramp_Rate := Default_Ramp_Rate p;
     Default_Step_Increment := Default_Step_Increment p;
     Transition := Transition p;
     Present_Value_Minimum := Present_Value_Minimum p;
     Present_Value_Maximum := Present_Value_Maximum p;
     Object_Name := Object_Name p; Description := Description p |}.

Definition set_Write_Enabled (flag : bool) (p : object_data) : object_data :=
  {| Changed := Changed p; Write_Enabled := flag;
     Present_Value := Present_Value p; Tracking_Value := Tracking_Value p;
     Color_Command := Color_Command p; In_Progress := In_Progress p;
     Default_Color_Temperature := Default_Color_Temperature p;
     Default_Fade_Time := Default_Fade_Time p;
     Default_Ramp_Rate := Default_Ramp_Rate p;
     Default_Step_Increment := Default_Step_Increment p;
     Transition := Transition p;
     Present_Value_Minimum := Present_Value_Minimum p;
     Present_Value_Maximum := Present_Value_Maximum p;
     Object_Name := Object_Name p; Description := Description p |}.

Definition set_Object_Name (name : option string) (p : object_data) : object_data :=
  {| Changed := Changed p; Write_Enabled := Write_Enabled p;
     Present_Value := Present_Value p; Tracking_Value := Tracking_Value p;
     Color_Command := Color_Command p; In_Progress := In_Progress p;
     Default_Color_Temperature := Default_Color_Temperature p;
     Default_Fade_Time := Default_Fade_Time p;
     Default_Ramp_Rate := Default_Ramp_Rate p;
     Default_Step_Increment := Default_Step_Increment p;
     Transition := Transition p;
     Present_Value_Minimum := Present_Value_Minimum p;
     Present_Value_Maximum := Present_Value_Maximum p;
     Object_Name := name; Description := Description p |}.

Definition set_Description (text : option string) (p : object_data) : object_data :=
  {| Changed := Changed p; Write_Enabled := Write_Enabled p;
     Present_Value := Present_Value p; Tracking_Value := Tracking_Value p;
     Color_Command := Color_Command p; In_Progress := In_Progress p;
     Default_Color_Temperature := Default_Color_Temperature p;
     Default_Fade_Time := Default_Fade_Time p;
     Default_Ramp_Rate := Default_Ramp_Rate p;
     Default_Step_Increment := Default_Step_Increment p;
     Transition := Transition p;
     Present_Value_Minimum := Present_Value_Minimum p;
     Present_Value_Maximum := Present_Value_Maximum p;
     Object_Name := Object_Name p; Description := text |}.

(** The record [Color_Temperature_Create] builds: [calloc] zeroes it and the
    assignments that follow set every field the function names. *)
Definition created_object : object_data :=
  {| Changed := false; Write_Enabled := false;
     Present_Value := 0; Tracking_Value := 0;
     Color_Command := {| operation := BACNET_COLOR_OPERATION_NONE |};
     In_Progress := BACNET_COLOR_OPERATION_IN_PROGRESS_IDLE;
     Default_Color_Temperature := 5000;
     Default_Fade_Time := 0;
     Default_Ramp_Rate := 0;
     Default_Step_Increment := 0;
     Transition := BACNET_COLOR_TRANSITION_NONE;
     Present_Value_Minimum := 0;
     Present_Value_Maximum := 0;
     Object_Name := None; Description := None |}.

(** ** The keyed store (keylist.c) *)

(** Modelled from the spec: keylist.c is missing.  The store is an
    associative container keyed by instance number that holds one record
    per key; a [NULL] list handle is [None]. *)
Abbreviation OS_Keylist := (option (gmap Z object_data)).

(** Modelled from the spec: keylist.c is missing.  A new list is empty. *)
Definition Keylist_Create : OS_Keylist := Some ∅.

(** Modelled from the spec: keylist.c is missing.  The record under a key,
    [NULL] when the key is absent or the list is [NULL]. *)
Definition Keylist_Data (lst : OS_Keylist) (key : Z) : option object_data :=
  match lst with
  | Some m => m !! key
  | None => None
  end.

(** Modelled from the spec: keylist.c is missing.  The keys in iteration
    order, which is ascending. *)
Definition Keylist_Keys (lst : OS_Keylist) : list Z :=
  match lst with
  | Some m => merge_sort Z.le (map_to_list m).*1
  | None => []
  end.

(** Modelled from the spec: keylist.c is missing. *)
Definition Keylist_Count (lst : OS_Keylist) : Z :=
  Z.of_nat (length (Keylist_Keys lst)).

(** Modelled from the spec: keylist.c is missing.  Insertion keeps the
    ascending order and returns the position of the new key, or [-1] when
    the list is [NULL] or has no [room] for one more node.  The caller has
    checked that the key is absent. *)
Definition Keylist_Data_Add (room : bool) (lst : OS_Keylist) (key : Z)
    (data : object_data) : OS_Keylist * Z :=
  match lst with
  | Some m =>
      if room
      then (Some (<[key := data]> m),
            Z.of_nat (length (filter (λ k, k < key) (Keylist_Keys lst))))
      else (lst, -1)
  | None => (lst, -1)
  end.

(** Modelled from the spec: keylist.c is missing.  Removal hands the record
    back, [NULL] when the key is absent, which leaves the list as it was. *)
Definition Keylist_Data_Delete (lst : OS_Keylist) (key : Z)
    : OS_Keylist * option object_data :=
  match lst with
  | Some m => (Some (delete key m), m !! key)
  | None => (lst, None)
  end.

(** Modelled from the spec: keylist.c is missing.  The walk of the next
    empty key: upward from [key] while the key is taken. *)
Fixpoint Keylist_Next_Empty_Key_loop (steps : nat) (m : gmap Z object_data)
    (key : Z) : Z :=
  match steps with
  | O => key
  | S steps' =>
      match m !! key with
      | Some _ => Keylist_Next_Empty_Key_loop steps' m (key + 1)
      | None => key
      end
  end.

(** Modelled from the spec: keylist.c is missing.  The lowest unused key at
    or above the start value; a list of n records has a free key within
    n + 1 steps. *)
Definition Keylist_Next_Empty_Key (lst : OS_Keylist) (key : Z) : Z :=
  match lst with
  | Some m => Keylist_Next_Empty_Key_loop (S (size m)) m key
  | None => key
  end.

(** Not a function of keylist.c: the list after an assignment through
    [pObject], the record pointer that [Keylist_Data] returned for [key]. *)
Definition pObject_assign (lst : OS_Keylist) (key : Z)
    (data : object_data) : OS_Keylist :=
  match lst with
  | Some m => Some (<[key := data]> m)
  | None => None
  end.

(** ** The device around the object

    [Object_List] and the present-value callback are the statics of the C
    file.  The callback is application code the file only calls: the static
    is whether one is set ([NULL] is [false]), and what it receives is kept
    as a trace, newest call first.  [Database_Revision]
    and [Device_Objects] belong to the device object: the revision counter
    and the named objects that other object files of the device hold. *)

Record device := {
  Object_List : OS_Keylist;
  Color_Temperature_Write_Present_Value_Callback : bool;
  Present_Value_Indications : list (Z * Z * Z);
  Database_Revision : Z;
  Device_Objects : list (BACNET_OBJECT_TYPE * Z * string)
}.

Definition with_Object_List (lst : OS_Keylist) (s : device) : device :=
  {| Object_List := lst;
     Color_Temperature_Write_Present_Value_Callback :=
       Color_Temperature_Write_Present_Value_Callback s;
     Present_Value_Indications := Present_Value_Indications s;
     Database_Revision := Database_Revision s;
     Device_Objects := Device_Objects s |}.

Definition with_Indication (call : Z * Z * Z) (s : device) : device :=
  {| Object_List := Object_List s;
     Color_Temperature_Write_Present_Value_Callback :=
       Color_Temperature_Write_Present_Value_Callback s;
     Present_Value_Indications := call :: Present_Value_Indications s;
     Database_Revision := Database_Revision s;
     Device_Objects := Device_Objects s |}.

(** Modelled from the spec: device.c is missing.  The counter
    is device-wide, 32 bits wide, and every call adds one. *)
Definition Device_Inc_Database_Revision (s : device) : device :=
  {| Object_List := Object_List s;
     Color_Temperature_Write_Present_Value_Callback :=
       Color_Temperature_Write_Present_Value_Callback s;
     Present_Value_Indications := Present_Value_Indications s;
     Database_Revision := to_uint32 (Database_Revision s + 1);
     Device_Objects := Device_Objects s |}.

(** ** Lookups by instance *)

Definition Color_Temperature_Valid_Instance (s : device) (object_instance : Z)
    : bool :=
  match Keylist_Data (Object_List s) object_instance with
  | Some _ => true
  | None => false
  end.

Definition Color_Temperature_Count (s : device) : Z :=
  Keylist_Count (Object_List s).

(** ** Property values of an instance *)

Definition Color_Temperature_Present_Value (s : device) (object_instance : Z)
    : Z :=
  match Keylist_Data (Object_List s) object_instance with
  | Some pObject => Present_Value pObject
  | None => 0
  end.

Definition Color_Temperature_Present_Value_Set (object_instance value : Z)
    (s : device) : bool * device :=
  match Keylist_Data (Object_List s) object_instance with
  | Some pObject =>
      (true, with_Object_List
               (pObject_assign (Object_List s) object_instance
                  (set_Present_Value value pObject)) s)
  | None => (false, s)
  end.

(** The second component is what the function stores through
    [error_class] and [error_code], [None] when it leaves them alone. *)
Definition Color_Temperature_Present_Value_Write
    (object_instance value priority : Z) (s : device)
    : bool * option (BACNET_ERROR_CLASS * BACNET_ERROR_CODE) * device :=
  match Keylist_Data (Object_List s) object_instance with
  | Some pObject =>
      if Write_Enabled pObject then
        let old_value := Present_Value pObject in
        let s1 :=
          with_Object_List
            (pObject_assign (Object_List s) object_instance
               (set_Present_Value value pObject)) s in
        let s2 :=
          if Color_Temperature_Write_Present_Value_Callback s1
          then with_Indication (object_instance, old_value, value) s1
          else s1 in
        (true, None, s2)
      else
        (false, Some (ERROR_CLASS_PROPERTY, ERROR_CODE_WRITE_ACCESS_DENIED), s)
  | None => (false, Some (ERROR_CLASS_OBJECT, ERROR_CODE_UNKNOWN_OBJECT), s)
  end.

Definition Color_Temperature_Tracking_Value (s : device) (object_instance : Z)
    : Z :=
  match Keylist_Data (Object_List s) object_instance with
  | Some pObject => Tracking_Value pObject
  | None => 0
  end.

Definition Color_Temperature_Min_Pres_Value (s : device) (object_instance : Z)
    : Z :=
  match Keylist_Data (Object_List s) object_instance with
  | Some pObject => Present_Value_Minimum pObject
  | None => 0
  end.

Definition Color_Temperature_Max_Pres_Value (s : device) (object_instance : Z)
    : Z :=
  match Keylist_Data (Object_List s) object_instance with
  | Some pObject => Present_Value_Maximum pObject
  | None => 0
  end.

(** The result is the copy the caller's [value] receives, [None] when the
    function returns false. *)
Definition Color_Temperature_Command (s : device) (object_instance : Z)
    : option BACNET_COLOR_COMMAND :=
  match Keylist_Data (Object_List s) object_instance with
  | Some pObject => Some (Color_Command pObject)
  | None => None
  end.

Definition Color_Temperature_In_Progress (s : device) (object_instance : Z)
    : Z :=
  match Keylist_Data (Object_List s) object_instance with
  | Some pObject => In_Progress pObject
  | None => BACNET_COLOR_OPERATION_IN_PROGRESS_MAX
  end.

Definition Color_Temperature_Default_Color_Temperature (s : device)
    (object_instance : Z) : Z :=
  match Keylist_Data (Object_List s) object_instance with
  | Some pObject => Default_Color_Temperature pObject
  | None => 0
  end.

Definition Color_Temperature_Default_Fade_Time (s : device)
    (object_instance : Z) : Z :=
  match Keylist_Data (Object_List s) object_instance with
  | Some pObject => Default_Fade_Time pObject
  | None => 0
  end.

Definition Color_Temperature_Default_Ramp_Rate (s : device)
    (object_instance : Z) : Z :=
  match Keylist_Data (Object_List s) object_instance with
  | Some pObject => Default_Ramp_Rate pObject
  | None => 0
  end.

Definition Color_Temperature_Default_Step_Increment (s : device)
    (object_instance : Z) : Z :=
  match Keylist_Data (Object_List s) object_instance with
  | Some pObject => Default_Step_Increment pObject
  | None => 0
  end.

Definition Color_Temperature_Transition (s : device) (object_instance : Z)
    : Z :=
  match Keylist_Data (Object_List s) object_instance with
  | Some pObject => Transition pObject
  | None => BACNET_COLOR_TRANSITION_NONE
  end.

(** ** Names

    [snprintf] prints into [name_text], 26 bytes long: at most 25 characters
    of the default name are kept.  The result is the text loaded into the
    caller's character string, [None] when the function returns false. *)

Definition Color_Temperature_Object_Name (s : device) (object_instance : Z)
    : option string :=
  match Keylist_Data (Object_List s) object_instance with
  | Some pObject =>
      match Object_Name pObject with
      | Some name => Some name
      | None =>
          Some (String.substring 0 25
                  ("COLOR-TEMPERATURE-" +:+ pretty (Z.to_N object_instance)))
      end
  | None => None
  end.

(** The entries the Color Temperature object contributes to the device's
    object list: one per stored instance, in ascending key order. *)
Definition Color_Temperature_Objects (s : device)
    : list (BACNET_OBJECT_TYPE * Z * string) :=
  omap (λ key, (λ name, (OBJECT_COLOR_TEMPERATURE, key, name))
                 <$> Color_Temperature_Object_Name s key)
       (Keylist_Keys (Object_List s)).

(** Modelled from the spec: device.c is missing.  The scan
    walks the names of the device's full object population, the objects of
    the other types first, and reports the type and instance of the first
    object that holds the name. *)
Definition Device_Valid_Object_Name (s : device) (object_name : string)
    : option (BACNET_OBJECT_TYPE * Z) :=
  match
    List.find (λ entry, String.eqb (snd entry) object_name)
      (Device_Objects s ++ Color_Temperature_Objects s)
  with
  | Some (found_type, found_instance, _) => Some (found_type, found_instance)
  | None => None
  end.

Definition Color_Temperature_Name_Set (object_instance : Z)
    (new_name : option string) (s : device) : bool * device :=
  match Keylist_Data (Object_List s) object_instance, new_name with
  | Some pObject, Some name =>
      match Device_Valid_Object_Name s name with
      | Some (found_type, found_instance) =>
          if bool_decide (found_type = OBJECT_COLOR)
             && bool_decide (found_instance = object_instance)
          then (true, s)
          else (false, s)
      | None =>
          (true,
           Device_Inc_Database_Revision
             (with_Object_List
                (pObject_assign (Object_List s) object_instance
                   (set_Object_Name (Some name) pObject)) s))
      end
  | _, _ => (false, s)
  end.

Definition Color_Temperature_Description (s : device) (object_instance : Z)
    : option string :=
  match Keylist_Data (Object_List s) object_instance with
  | Some pObject =>
      match Description pObject with
      | Some text => Some text
      | None => Some ""%string
      end
  | None => None
  end.

Definition Color_Temperature_Description_Set (object_instance : Z)
    (new_name : option string) (s : device) : bool * device :=
  match Keylist_Data (Object_List s) object_instance, new_name with
  | Some pObject, Some text =>
      (true, with_Object_List
               (pObject_assign (Object_List s) object_instance
                  (set_Description (Some text) pObject)) s)
  | _, _ => (false, s)
  end.

Definition Color_Temperature_Write_Present_Value_Callback_Set (cb : bool)
    (s : device) : device :=
  {| Object_List := Object_List s;
     Color_Temperature_Write_Present_Value_Callback := cb;
     Present_Value_Indications := Present_Value_Indications s;
     Database_Revision := Database_Revision s;
     Device_Objects := Device_Objects s |}.

(** ** The write-enabled flag *)

Definition Color_Temperature_Write_Enabled (s : device) (object_instance : Z)
    : bool :=
  match Keylist_Data (Object_List s) object_instance with
  | Some pObject => Write_Enabled pObject
  | None => false
  end.

Definition Color_Temperature_Write_Enable (object_instance : Z) (s : device)
    : device :=
  match Keylist_Data (Object_List s) object_instance with
  | Some pObject =>
      with_Object_List
        (pObject_assign (Object_List s) object_instance
           (set_Write_Enabled true pObject)) s
  | None => s
  end.

Definition Color_Temperature_Write_Disable (object_instance : Z) (s : device)
    : device :=
  match Keylist_Data (Object_List s) object_instance with
  | Some pObject =>
      with_Object_List
        (pObject_assign (Object_List s) object_instance
           (set_Write_Enabled false pObject)) s
  | None => s
  end.

(** ** Lifecycle

    [calloc] and the growth of the key list can fail; which of them has
    memory is an input of the model. *)

Record heap := {
  calloc_succeeds : bool;
  keylist_has_room : bool
}.

Definition Color_Temperature_Create (mem : heap) (object_instance : Z)
    (s : device) : Z * device :=
  if BACNET_MAX_INSTANCE <? object_instance then (BACNET_MAX_INSTANCE, s)
  else
    let object_instance :=
      if object_instance =? BACNET_MAX_INSTANCE
      then Keylist_Next_Empty_Key (Object_List s) 1
      else object_instance in
    match Keylist_Data (Object_List s) object_instance with
    | Some _ => (object_instance, s)
    | None =>
        if calloc_succeeds mem then
          let '(lst, index) :=
            Keylist_Data_Add (keylist_has_room mem) (Object_List s)
              object_instance created_object in
          if 0 <=? index
          then (object_instance,
                Device_Inc_Database_Revision (with_Object_List lst s))
          else (BACNET_MAX_INSTANCE, s)
        else (BACNET_MAX_INSTANCE, s)
    end.

Definition Color_Temperature_Delete (object_instance : Z) (s : device)
    : bool * device :=
  match Keylist_Data_Delete (Object_List s) object_instance with
  | (lst, Some _) =>
      (true, Device_Inc_Database_Revision (with_Object_List lst s))
  | (_, None) => (false, s)
  end.

(** Every record popped off the list adds one to the revision counter. *)
Definition Color_Temperature_Cleanup (s : device) : device :=
  match Object_List s with
  | Some m =>
      Nat.iter (size m) Device_Inc_Database_Revision (with_Object_List None s)
  | None => s
  end.

(** The list handle is the one [Keylist_Create] returns. *)
Definition Color_Temperature_Init (s : device) : device :=
  with_Object_List Keylist_Create s.

(** ** Requests (rp.h, wp.h)

    Modelled from the spec: rp.h and wp.h are missing.  The two request
    structures hold object type, instance, property, array index, the
    octets and their length, the error pair and, for a write, the priority.
    A [NULL] pointer is [None]; octets are integers in 0..255. *)

Module RP.
Record data := {
  object_type : BACNET_OBJECT_TYPE;
  object_instance : Z;
  object_property : BACNET_PROPERTY_ID;
  array_index : Z;
  application_data : option (list Z);
  application_data_len : Z;
  error_class : BACNET_ERROR_CLASS;
  error_code : BACNET_ERROR_CODE
}.

Definition with_error (class : BACNET_ERROR_CLASS) (code : BACNET_ERROR_CODE)
    (r : data) : data :=
  {| object_type := object_type r; object_instance := object_instance r;
     object_property := object_property r; array_index := array_index r;
     application_data := application_data r;
     application_data_len := application_data_len r;
     error_class := class; error_code := code |}.

Definition with_application_data (apdu : list Z) (r : data) : data :=
  {| object_type := object_type r; object_instance := object_instance r;
     object_property := object_property r; array_index := array_index r;
     application_data := Some apdu;
     application_data_len := application_data_len r;
     error_class := error_class r; error_code := error_code r |}.
End RP.

Module WP.
Record data := {
  object_type : BACNET_OBJECT_TYPE;
  object_instance : Z;
  object_property : BACNET_PROPERTY_ID;
  array_index : Z;
  application_data : list Z;
  application_data_len : Z;
  priority : Z;
  error_class : BACNET_ERROR_CLASS;
  error_code : BACNET_ERROR_CODE
}.

Definition with_error (class : BACNET_ERROR_CLASS) (code : BACNET_ERROR_CODE)
    (w : data) : data :=
  {| object_type := object_type w; object_instance := object_instance w;
     object_property := object_property w; array_index := array_index w;
     application_data := application_data w;
     application_data_len := application_data_len w;
     priority := priority w;
     error_class := class; error_code := code |}.
End WP.

Abbreviation BACNET_READ_PROPERTY_DATA := RP.data.
Abbreviation BACNET_WRITE_PROPERTY_DATA := WP.data.

(** Modelled from the spec: bacapp.h is missing.  A decoded value is its
    application tag and its payload; of the union [type] only the member
    the write handler reads is kept. *)
Record BACNET_APPLICATION_DATA_VALUE := {
  tag : Z;
  Unsigned_Int : Z
}.

(** ** The tag codec (bacdcode.c, bacapp.c, lighting.c)

    The codec files are missing; the handlers take the codec as a
    parameter.  An encoder yields the octets it writes at the start of the
    buffer, and the length the C function returns is their number; the
    decoder yields the length it returns, negative on failure, and the
    value it fills in. *)

Class Tag_Codec := {
  bacapp_decode_application_data :
    list Z → Z → Z * BACNET_APPLICATION_DATA_VALUE;
  encode_application_object_id : BACNET_OBJECT_TYPE → Z → list Z;
  encode_application_character_string : string → list Z;
  encode_application_enumerated : Z → list Z;
  encode_application_unsigned : Z → list Z;
  color_command_encode : BACNET_COLOR_COMMAND → list Z
}.

(** Modelled from the spec: wp.c is missing.  The decoded tag
    has to be the expected one; a mismatch loads the error pair
    (property, invalid-data-type). *)
Definition write_property_type_valid (wp_data : BACNET_WRITE_PROPERTY_DATA)
    (value : BACNET_APPLICATION_DATA_VALUE) (expected_tag : Z)
    : bool * BACNET_WRITE_PROPERTY_DATA :=
  if bool_decide (tag value = expected_tag)
  then (true, wp_data)
  else (false,
        WP.with_error ERROR_CLASS_PROPERTY ERROR_CODE_INVALID_DATA_TYPE wp_data).

(** The property lists the object declares. *)
Definition Color_Temperature_Properties_Required : list BACNET_PROPERTY_ID :=
  [ PROP_OBJECT_IDENTIFIER; PROP_OBJECT_NAME; PROP_OBJECT_TYPE;
    PROP_PRESENT_VALUE; PROP_TRACKING_VALUE; PROP_COLOR_COMMAND;
    PROP_IN_PROGRESS; PROP_DEFAULT_COLOR_TEMPERATURE; PROP_DEFAULT_FADE_TIME;
    PROP_DEFAULT_RAMP_RATE; PROP_DEFAULT_STEP_INCREMENT ].

Definition Color_Temperature_Properties_Optional : list BACNET_PROPERTY_ID :=
  [ PROP_DESCRIPTION; PROP_TRANSITION; PROP_MIN_PRES_VALUE;
    PROP_MAX_PRES_VALUE ].

Definition Color_Temperature_Properties_Proprietary : list BACNET_PROPERTY_ID :=
  [].

Definition Color_Temperature_Property_Lists
    : list BACNET_PROPERTY_ID * list BACNET_PROPERTY_ID
      * list BACNET_PROPERTY_ID :=
  (Color_Temperature_Properties_Required,
   Color_Temperature_Properties_Optional,
   Color_Temperature_Properties_Proprietary).

(** ** The ReadProperty and WriteProperty handlers *)

Section Handlers.
Context {codec : Tag_Codec}.

(** The octets an encoder wrote over the start of [apdu], and their
    number.  The C code writes without looking at the room left; the
    octets past the end of a short buffer are kept. *)
Definition encoded (rp : BACNET_READ_PROPERTY_DATA) (apdu bytes : list Z)
    : Z * BACNET_READ_PROPERTY_DATA :=
  (Z.of_nat (length bytes),
   RP.with_application_data (bytes ++ drop (length bytes) apdu) rp).

(** The switch of the read handler.  The local [char_string] of the C
    function is declared without an initial value: the argument
    [char_string] is what it holds on entry, any text at all.  The object
    name case drops the status of [Color_Temperature_Object_Name] and
    encodes the local: for an instance that is not in the list no callee
    has loaded it, and what is encoded is the text it held on entry.  The
    description case loads the local itself; there the text of a missing
    description is empty. *)
Definition Read_Property_switch (s : device) (char_string : string)
    (rp : BACNET_READ_PROPERTY_DATA) (apdu : list Z)
    : Z * BACNET_READ_PROPERTY_DATA :=
  let object_instance := RP.object_instance rp in
  match RP.object_property rp with
  | PROP_OBJECT_IDENTIFIER =>
      encoded rp apdu
        (encode_application_object_id (RP.object_type rp) object_instance)
  | PROP_OBJECT_NAME =>
      let char_string :=
        match Color_Temperature_Object_Name s object_instance with
        | Some object_name => object_name
        | None => char_string
        end in
      encoded rp apdu (encode_application_character_string char_string)
  | PROP_OBJECT_TYPE =>
      encoded rp apdu
        (encode_application_enumerated (object_type_code (RP.object_type rp)))
  | PROP_PRESENT_VALUE =>
      encoded rp apdu
        (encode_application_unsigned
           (Color_Temperature_Present_Value s object_instance))
  | PROP_MIN_PRES_VALUE =>
      encoded rp apdu
        (encode_application_unsigned
           (Color_Temperature_Min_Pres_Value s object_instance))
  | PROP_MAX_PRES_VALUE =>
      encoded rp apdu
        (encode_application_unsigned
           (Color_Temperature_Max_Pres_Value s object_instance))
  | PROP_TRACKING_VALUE =>
      encoded rp apdu
        (encode_application_unsigned
           (Color_Temperature_Tracking_Value s object_instance))
  | PROP_COLOR_COMMAND =>
      match Color_Temperature_Command s object_instance with
      | Some color_command =>
          encoded rp apdu (color_command_encode color_command)
      | None => (0, rp)
      end
  | PROP_IN_PROGRESS =>
      encoded rp apdu
        (encode_application_enumerated
           (Color_Temperature_In_Progress s object_instance))
  | PROP_DEFAULT_COLOR_TEMPERATURE =>
      encoded rp apdu
        (encode_application_unsigned
           (Color_Temperature_Default_Color_Temperature s object_instance))
  | PROP_DEFAULT_FADE_TIME =>
      encoded rp apdu
        (encode_application_unsigned
           (Color_Temperature_Default_Fade_Time s object_instance))
  | PROP_DEFAULT_RAMP_RATE =>
      encoded rp apdu
        (encode_application_unsigned
           (Color_Temperature_Default_Ramp_Rate s object_instance))
  | PROP_DEFAULT_STEP_INCREMENT =>
      encoded rp apdu
        (encode_application_unsigned
           (Color_Temperature_Default_Step_Increment s object_instance))
  | PROP_TRANSITION =>
      encoded rp apdu
        (encode_application_enumerated
           (Color_Temperature_Transition s object_instance))
  | PROP_DESCRIPTION =>
      encoded rp apdu
        (encode_application_character_string
           (default ""%string (Color_Temperature_Description s object_instance)))
  | _ =>
      (BACNET_STATUS_ERROR,
       RP.with_error ERROR_CLASS_PROPERTY ERROR_CODE_UNKNOWN_PROPERTY rp)
  end.

(** [char_string] is the text the uninitialised local of that name holds
    when the handler is entered. *)
Definition Color_Temperature_Read_Property (s : device) (char_string : string)
    (rpdata : option BACNET_READ_PROPERTY_DATA)
    : Z * option BACNET_READ_PROPERTY_DATA :=
  match rpdata with
  | None => (0, rpdata)
  | Some rp =>
      match RP.application_data rp with
      | None => (0, rpdata)
      | Some apdu =>
          if RP.application_data_len rp =? 0 then (0, rpdata)
          else
            let '(apdu_len, rp1) :=
              Read_Property_switch s char_string rp apdu in
            if (0 <=? apdu_len)
               && bool_decide (RP.object_property rp ≠ PROP_PRIORITY_ARRAY)
               && bool_decide (RP.object_property rp ≠ PROP_EVENT_TIME_STAMPS)
               && bool_decide (RP.array_index rp ≠ BACNET_ARRAY_ALL)
            then
              (BACNET_STATUS_ERROR,
               Some (RP.with_error ERROR_CLASS_PROPERTY
                       ERROR_CODE_PROPERTY_IS_NOT_AN_ARRAY rp1))
            else (apdu_len, Some rp1)
      end
  end.

Definition Color_Temperature_Write_Property
    (wp_data : BACNET_WRITE_PROPERTY_DATA) (s : device)
    : bool * BACNET_WRITE_PROPERTY_DATA * device :=
  let '(len, value) :=
    bacapp_decode_application_data (WP.application_data wp_data)
      (WP.application_data_len wp_data) in
  if len <? 0 then
    (false,
     WP.with_error ERROR_CLASS_PROPERTY ERROR_CODE_VALUE_OUT_OF_RANGE wp_data,
     s)
  else if bool_decide (WP.object_property wp_data ≠ PROP_PRIORITY_ARRAY)
          && bool_decide (WP.object_property wp_data ≠ PROP_EVENT_TIME_STAMPS)
          && bool_decide (WP.array_index wp_data ≠ BACNET_ARRAY_ALL)
  then
    (false,
     WP.with_error ERROR_CLASS_PROPERTY ERROR_CODE_PROPERTY_IS_NOT_AN_ARRAY
       wp_data,
     s)
  else
    match WP.object_property wp_data with
    | PROP_PRESENT_VALUE =>
        let '(status, wp1) :=
          write_property_type_valid wp_data value
            BACNET_APPLICATION_TAG_UNSIGNED_INT in
        if status then
          let '(status, error, s') :=
            Color_Temperature_Present_Value_Write
              (WP.object_instance wp1) (to_uint32 (Unsigned_Int value))
              (WP.priority wp1) s in
          (status,
           match error with
           | Some (class, code) => WP.with_error class code wp1
           | None => wp1
           end,
           s')
        else (false, wp1, s)
    | PROP_OBJECT_IDENTIFIER
    | PROP_OBJECT_TYPE
    | PROP_OBJECT_NAME
    | PROP_DESCRIPTION =>
        (false,
         WP.with_error ERROR_CLASS_PROPERTY ERROR_CODE_WRITE_ACCESS_DENIED
           wp_data,
         s)
    | _ =>
        (false,
         WP.with_error ERROR_CLASS_PROPERTY ERROR_CODE_UNKNOWN_PROPERTY wp_data,
         s)
    end.

End Handlers.

(** ** The other property writers

    Field assignments through [pObject] for the writers below. *)

Definition set_Tracking_Value (value : Z) (p : object_data) : object_data :=
  {| Changed := Changed p;
     Write_Enabled := Write_Enabled p;
     Present_Value := Present_Value p;
     Tracking_Value := value;
     Color_Command := Color_Command p;
     In_Progress := In_Progress p;
     Default_Color_Temperature := Default_Color_Temperature p;
     Default_Fade_Time := Default_Fade_Time p;
     Default_Ramp_Rate := Default_Ramp_Rate p;
     Default_Step_Increment := Default_Step_Increment p;
     Transition := Transition p;
     Present_Value_Minimum := Present_Value_Minimum p;
     Present_Value_Maximum := Present_Value_Maximum p;
     Object_Name := Object_Name p;
     Description := Description p |}.

Definition set_In_Progress (value : Z) (p : object_data) : object_data :=
  {| Changed := Changed p;
     Write_Enabled := Write_Enabled p;
     Present_Value := Present_Value p;
     Tracking_Value := Tracking_Value p;
     Color_Command := Color_Command p;
     In_Progress := value;
     Default_Color_Temperature := Default_Color_Temperature p;
     Default_Fade_Time := Default_Fade_Time p;
     Default_Ramp_Rate := Default_Ramp_Rate p;
     Default_Step_Increment := Default_Step_Increment p;
     Transition := Transition p;
     Present_Value_Minimum := Present_Value_Minimum p;
     Present_Value_Maximum := Present_Value_Maximum p;
     Object_Name := Object_Name p;
     Description := Description p |}.

Definition set_Default_Color_Temperature (value : Z) (p : object_data) : object_data :=
  {| Changed := Changed p;
     Write_Enabled := Write_Enabled p;
     Present_Value := Present_Value p;
     Tracking_Value := Tracking_Value p;
     Color_Command := Color_Command p;
     In_Progress := In_Progress p;
     Default_Color_Temperature := value;
     Default_Fade_Time := Default_Fade_Time p;
     Default_Ramp_Rate := Default_Ramp_Rate p;
     Default_Step_Increment := Default_Step_Increment p;
     Transition := Transition p;
     Present_Value_Minimum := Present_Value_Minimum p;
     Present_Value_Maximum := Present_Value_Maximum p;
     Object_Name := Object_Name p;
     Description := Description p |}.

Definition set_Default_Fade_Time (value : Z) (p : object_data) : object_data :=
  {| Changed := Changed p;
     Write_Enabled := Write_Enabled p;
     Present_Value := Present_Value p;
     Tracking_Value := Tracking_Value p;
     Color_Command := Color_Command p;
     In_Progress := In_Progress p;
     Default_Color_Temperature := Default_Color_Temperature p;
     Default_Fade_Time := value;
     Default_Ramp_Rate := Default_Ramp_Rate p;
     Default_Step_Increment := Default_Step_Increment p;
     Transition := Transition p;
     Present_Value_Minimum := Present_Value_Minimum p;
     Present_Value_Maximum := Present_Value_Maximum p;
     Object_Name := Object_Name p;
     Description := Description p |}.

Definition set_Default_Ramp_Rate (value : Z) (p : object_data) : object_data :=
  {| Changed := Changed p;
     Write_Enabled := Write_Enabled p;
     Present_Value := Present_Value p;
     Tracking_Value := Tracking_Value p;
     Color_Command := Color_Command p;
     In_Progress := In_Progress p;
     Default_Color_Temperature := Default_Color_Temperature p;
     Default_Fade_Time := Default_Fade_Time p;
     Default_Ramp_Rate := value;
     Default_Step_Increment := Default_Step_Increment p;
     Transition := Transition p;
     Present_Value_Minimum := Present_Value_Minimum p;
     Present_Value_Maximum := Present_Value_Maximum p;
     Object_Name := Object_Name p;
     Description := Description p |}.

Definition set_Default_Step_Increment (value : Z) (p : object_data) : object_data :=
  {| Changed := Changed p;
     Write_Enabled := Write_Enabled p;
     Present_Value := Present_Value p;
     Tracking_Value := Tracking_Value p;
     Color_Command := Color_Command p;
     In_Progress := In_Progress p;
     Default_Color_Temperature := Default_Color_Temperature p;
     Default_Fade_Time := Default_Fade_Time p;
     Default_Ramp_Rate := Default_Ramp_Rate p;
     Default_Step_Increment := value;
     Transition := Transition p;
     Present_Value_Minimum := Present_Value_Minimum p;
     Present_Value_Maximum := Present_Value_Maximum p;
     Object_Name := Object_Name p;
     Description := Description p |}.

Definition set_Transition (value : Z) (p : object_data) : object_data :=
  {| Changed := Changed p;
     Write_Enabled := Write_Enabled p;
     Present_Value := Present_Value p;
     Tracking_Value := Tracking_Value p;
     Color_Command := Color_Command p;
     In_Progress := In_Progress p;
     Default_Color_Temperature := Default_Color_Temperature p;
     Default_Fade_Time := Default_Fade_Time p;
     Default_Ramp_Rate := Default_Ramp_Rate p;
     Default_Step_Increment := Default_Step_Increment p;
     Transition := value;
     Present_Value_Minimum := Present_Value_Minimum p;
     Present_Value_Maximum := Present_Value_Maximum p;
     Object_Name := Object_Name p;
     Description := Description p |}.

Definition set_Present_Value_Minimum (value : Z) (p : object_data) : object_data :=
  {| Changed := Changed p;
     Write_Enabled := Write_Enabled p;
     Present_Value := Present_Value p;
     Tracking_Value := Tracking_Value p;
     Color_Command := Color_Command p;
     In_Progress := In_Progress p;
     Default_Color_Temperature := Default_Color_Temperature p;
     Default_Fade_Time := Default_Fade_Time p;
     Default_Ramp_Rate := Default_Ramp_Rate p;
     Default_Step_Increment := Default_Step_Increment p;
     Transition := Transition p;
     Present_Value_Minimum := value;
     Present_Value_Maximum := Present_Value_Maximum p;
     Object_Name := Object_Name p;
     Description := Description p |}.

Definition set_Present_Value_Maximum (value : Z) (p : object_data) : object_data :=
  {| Changed := Changed p;
     Write_Enabled := Write_Enabled p;
     Present_Value := Present_Value p;
     Tracking_Value := Tracking_Value p;
     Color_Command := Color_Command p;
     In_Progress := In_Progress p;
     Default_Color_Temperature := Default_Color_Temperature p;
     Default_Fade_Time := Default_Fade_Time p;
     Default_Ramp_Rate := Default_Ramp_Rate p;
     Default_Step_Increment := Default_Step_Increment p;
     Transition := Transition p;
     Present_Value_Minimum := Present_Value_Minimum p;
     Present_Value_Maximum := value;
     Object_Name := Object_Name p;
     Description := Description p |}.

Definition Color_Temperature_Tracking_Value_Set (object_instance value : Z)
    (s : device) : bool * device :=
  match Keylist_Data (Object_List s) object_instance with
  | Some pObject =>
      (true, with_Object_List
               (pObject_assign (Object_List s) object_instance
                  (set_Tracking_Value value pObject)) s)
  | None => (false, s)
  end.

Definition Color_Temperature_Min_Pres_Value_Set (object_instance value : Z)
    (s : device) : bool * device :=
  match Keylist_Data (Object_List s) object_instance with
  | Some pObject =>
      (true, with_Object_List
               (pObject_assign (Object_List s) object_instance
                  (set_Present_Value_Minimum value pObject)) s)
  | None => (false, s)
  end.

Definition Color_Temperature_Max_Pres_Value_Set (object_instance value : Z)
    (s : device) : bool * device :=
  match Keylist_Data (Object_List s) object_instance with
  | Some pObject =>
      (true, with_Object_List
               (pObject_assign (Object_List s) object_instance
                  (set_Present_Value_Maximum value pObject)) s)
  | None => (false, s)
  end.

Definition Color_Temperature_Default_Color_Temperature_Set (object_instance value : Z)
    (s : device) : bool * device :=
  match Keylist_Data (Object_List s) object_instance with
  | Some pObject =>
      (true, with_Object_List
               (pObject_assign (Object_List s) object_instance
                  (set_Default_Color_Temperature value pObject)) s)
  | None => (false, s)
  end.

Definition Color_Temperature_Default_Ramp_Rate_Set (object_instance value : Z)
    (s : device) : bool * device :=
  match Keylist_Data (Object_List s) object_instance with
  | Some pObject =>
      (true, with_Object_List
               (pObject_assign (Object_List s) object_instance
                  (set_Default_Ramp_Rate value pObject)) s)
  | None => (false, s)
  end.

Definition Color_Temperature_Default_Step_Increment_Set (object_instance value : Z)
    (s : device) : bool * device :=
  match Keylist_Data (Object_List s) object_instance with
  | Some pObject =>
      (true, with_Object_List
               (pObject_assign (Object_List s) object_instance
                  (set_Default_Step_Increment value pObject)) s)
  | None => (false, s)
  end.

Definition Color_Temperature_In_Progress_Set (object_instance value : Z)
    (s : device) : bool * device :=
  match Keylist_Data (Object_List s) object_instance with
  | Some pObject =>
      if value <? BACNET_COLOR_OPERATION_IN_PROGRESS_MAX
      then (true, with_Object_List
                    (pObject_assign (Object_List s) object_instance
                       (set_In_Progress value pObject)) s)
      else (false, s)
  | None => (false, s)
  end.

Definition set_Color_Command (value : BACNET_COLOR_COMMAND) (p : object_data)
    : object_data :=
  {| Changed := Changed p;
     Write_Enabled := Write_Enabled p;
     Present_Value := Present_Value p;
     Tracking_Value := Tracking_Value p;
     Color_Command := value;
     In_Progress := In_Progress p;
     Default_Color_Temperature := Default_Color_Temperature p;
     Default_Fade_Time := Default_Fade_Time p;
     Default_Ramp_Rate := Default_Ramp_Rate p;
     Default_Step_Increment := Default_Step_Increment p;
     Transition := Transition p;
     Present_Value_Minimum := Present_Value_Minimum p;
     Present_Value_Maximum := Present_Value_Maximum p;
     Object_Name := Object_Name p;
     Description := Description p |}.

(** The copy of a color command (lighting.c).  The file is missing; the
    writer of the color command takes the copy as a parameter:
    [color_command_copy dest src] is what the destination holds after the
    call. *)
Class Lighting := {
  color_command_copy :
    BACNET_COLOR_COMMAND → BACNET_COLOR_COMMAND → BACNET_COLOR_COMMAND
}.

(** [value] is the caller's pointer, [None] when it is NULL. *)
Definition Color_Temperature_Command_Set {lighting : Lighting}
    (object_instance : Z) (value : option BACNET_COLOR_COMMAND) (s : device)
    : bool * device :=
  match Keylist_Data (Object_List s) object_instance, value with
  | Some pObject, Some value =>
      (true, with_Object_List
               (pObject_assign (Object_List s) object_instance
                  (set_Color_Command
                     (color_command_copy (Color_Command pObject) value)
                     pObject)) s)
  | _, _ => (false, s)
  end.

(** The writers that store without a test, by name, and the readers of the
    numeric properties, by name: [plain_write] and [reading] dispatch to
    the C functions. *)
Inductive plain_writer :=
  | Writer_Present_Value
  | Writer_Tracking_Value
  | Writer_Min_Pres_Value
  | Writer_Max_Pres_Value
  | Writer_Default_Color_Temperature
  | Writer_Default_Ramp_Rate
  | Writer_Default_Step_Increment.

Inductive numeric_reader :=
  | Reader_Present_Value
  | Reader_Tracking_Value
  | Reader_Min_Pres_Value
  | Reader_Max_Pres_Value
  | Reader_In_Progress
  | Reader_Default_Color_Temperature
  | Reader_Default_Fade_Time
  | Reader_Default_Ramp_Rate
  | Reader_Default_Step_Increment
  | Reader_Transition.

#[global] Instance numeric_reader_eq_dec : EqDecision numeric_reader.
Proof. solve_decision. Defined.

Definition plain_write (w : plain_writer) (object_instance value : Z)
    (s : device) : bool * device :=
  match w with
  | Writer_Present_Value =>
      Color_Temperature_Present_Value_Set object_instance value s
  | Writer_Tracking_Value =>
      Color_Temperature_Tracking_Value_Set object_instance value s
  | Writer_Min_Pres_Value =>
      Color_Temperature_Min_Pres_Value_Set object_instance value s
  | Writer_Max_Pres_Value =>
      Color_Temperature_Max_Pres_Value_Set object_instance value s
  | Writer_Default_Color_Temperature =>
      Color_Temperature_Default_Color_Temperature_Set object_instance value s
  | Writer_Default_Ramp_Rate =>
      Color_Temperature_Default_Ramp_Rate_Set object_instance value s
  | Writer_Default_Step_Increment =>
      Color_Temperature_Default_Step_Increment_Set object_instance value s
  end.

Definition reading (r : numeric_reader) (s : device) (object_instance : Z)
    : Z :=
  match r with
  | Reader_Present_Value => Color_Temperature_Present_Value s object_instance
  | Reader_Tracking_Value => Color_Temperature_Tracking_Value s object_instance
  | Reader_Min_Pres_Value => Color_Temperature_Min_Pres_Value s object_instance
  | Reader_Max_Pres_Value => Color_Temperature_Max_Pres_Value s object_instance
  | Reader_In_Progress => Color_Temperature_In_Progress s object_instance
  | Reader_Default_Color_Temperature =>
      Color_Temperature_Default_Color_Temperature s object_instance
  | Reader_Default_Fade_Time =>
      Color_Temperature_Default_Fade_Time s object_instance
  | Reader_Default_Ramp_Rate =>
      Color_Temperature_Default_Ramp_Rate s object_instance
  | Reader_Default_Step_Increment =>
      Color_Temperature_Default_Step_Increment s object_instance
  | Reader_Transition => Color_Temperature_Transition s object_instance
  end.

(** The reader that reads what a plain writer writes. *)
Definition reader_of (w : plain_writer) : numeric_reader :=
  match w with
  | Writer_Present_Value => Reader_Present_Value
  | Writer_Tracking_Value => Reader_Tracking_Value
  | Writer_Min_Pres_Value => Reader_Min_Pres_Value
  | Writer_Max_Pres_Value => Reader_Max_Pres_Value
  | Writer_Default_Color_Temperature => Reader_Default_Color_Temperature
  | Writer_Default_Ramp_Rate => Reader_Default_Ramp_Rate
  | Writer_Default_Step_Increment => Reader_Default_Step_Increment
  end.

(** The limits of lighting.h and bacenum.h that the guarded writers test.
    The headers are missing; the writers take the limits as a parameter. *)
Class Lighting_Limits := {
  BACNET_COLOR_FADE_TIME_MIN : Z;
  BACNET_COLOR_FADE_TIME_MAX : Z;
  BACNET_COLOR_TRANSITION_MAX : Z
}.

Section Guarded_Writers.
Context {limits : Lighting_Limits}.

(** The status is set after the range test: the writer reports success for
    a live instance whether or not it stored the value. *)
Definition Color_Temperature_Default_Fade_Time_Set (object_instance value : Z)
    (s : device) : bool * device :=
  match Keylist_Data (Object_List s) object_instance with
  | Some pObject =>
      if (value =? 0)
         || ((BACNET_COLOR_FADE_TIME_MIN <=? value)
             && (value <=? BACNET_COLOR_FADE_TIME_MAX))
      then (true, with_Object_List
                    (pObject_assign (Object_List s) object_instance
                       (set_Default_Fade_Time value pObject)) s)
      else (true, s)
  | None => (false, s)
  end.

Definition Color_Temperature_Transition_Set (object_instance value : Z)
    (s : device) : bool * device :=
  match Keylist_Data (Object_List s) object_instance with
  | Some pObject =>
      if value <? BACNET_COLOR_TRANSITION_MAX
      then (true, with_Object_List
                    (pObject_assign (Object_List s) object_instance
                       (set_Transition value pObject)) s)
      else (false, s)
  | None => (false, s)
  end.

End Guarded_Writers.

(** ** Calls of the object's interface

    One constructor for every function of the file that changes the device;
    [step] runs a call and drops what it returns, [run] runs a sequence of
    calls from left to right. *)

Inductive call :=
  | Call_Init
  | Call_Cleanup
  | Call_Create (mem : heap) (object_instance : Z)
  | Call_Delete (object_instance : Z)
  | Call_Name_Set (object_instance : Z) (new_name : option string)
  | Call_Description_Set (object_instance : Z) (new_name : option string)
  | Call_Present_Value_Set (object_instance value : Z)
  | Call_Tracking_Value_Set (object_instance value : Z)
  | Call_Min_Pres_Value_Set (object_instance value : Z)
  | Call_Max_Pres_Value_Set (object_instance value : Z)
  | Call_Command_Set (object_instance : Z)
      (value : option BACNET_COLOR_COMMAND)
  | Call_In_Progress_Set (object_instance value : Z)
  | Call_Default_Color_Temperature_Set (object_instance value : Z)
  | Call_Default_Fade_Time_Set (object_instance value : Z)
  | Call_Default_Ramp_Rate_Set (object_instance value : Z)
  | Call_Default_Step_Increment_Set (object_instance value : Z)
  | Call_Transition_Set (object_instance value : Z)
  | Call_Write_Enable (object_instance : Z)
  | Call_Write_Disable (object_instance : Z)
  | Call_Write_Present_Value_Callback_Set (cb : bool)
  | Call_Write_Property (wp_data : BACNET_WRITE_PROPERTY_DATA).

Section Calls.
Context {codec : Tag_Codec} {limits : Lighting_Limits} {lighting : Lighting}.

Definition step (c : call) (s : device) : device :=
  match c with
  | Call_Init => Color_Temperature_Init s
  | Call_Cleanup => Color_Temperature_Cleanup s
  | Call_Create mem object_instance =>
      (Color_Temperature_Create mem object_instance s).2
  | Call_Delete object_instance =>
      (Color_Temperature_Delete object_instance s).2
  | Call_Name_Set object_instance new_name =>
      (Color_Temperature_Name_Set object_instance new_name s).2
  | Call_Description_Set object_instance new_name =>
      (Color_Temperature_Description_Set object_instance new_name s).2
  | Call_Present_Value_Set object_instance value =>
      (Color_Temperature_Present_Value_Set object_instance value s).2
  | Call_Tracking_Value_Set object_instance value =>
      (Color_Temperature_Tracking_Value_Set object_instance value s).2
  | Call_Min_Pres_Value_Set object_instance value =>
      (Color_Temperature_Min_Pres_Value_Set object_instance value s).2
  | Call_Max_Pres_Value_Set object_instance value =>
      (Color_Temperature_Max_Pres_Value_Set object_instance value s).2
  | Call_Command_Set object_instance value =>
      (Color_Temperature_Command_Set object_instance value s).2
  | Call_In_Progress_Set object_instance value =>
      (Color_Temperature_In_Progress_Set object_instance value s).2
  | Call_Default_Color_Temperature_Set object_instance value =>
      (Color_Temperature_Default_Color_Temperature_Set object_instance value
         s).2
  | Call_Default_Fade_Time_Set object_instance value =>
      (Color_Temperature_Default_Fade_Time_Set object_instance value s).2
  | Call_Default_Ramp_Rate_Set object_instance value =>
      (Color_Temperature_Default_Ramp_Rate_Set object_instance value s).2
  | Call_Default_Step_Increment_Set object_instance value =>
      (Color_Temperature_Default_Step_Increment_Set object_instance value s).2
  | Call_Transition_Set object_instance value =>
      (Color_Temperature_Transition_Set object_instance value s).2
  | Call_Write_Enable object_instance =>
      Color_Temperature_Write_Enable object_instance s
  | Call_Write_Disable object_instance =>
      Color_Temperature_Write_Disable object_instance s
  | Call_Write_Present_Value_Callback_Set cb =>
      Color_Temperature_Write_Present_Value_Callback_Set cb s
  | Call_Write_Property wp_data =>
      (Color_Temperature_Write_Property wp_data s).2
  end.

Definition run (calls : list call) (s : device) : device :=
  fold_left (λ s' c, step c s') calls s.

End Calls.

(** What the guarded writers and the create keep true of every record: the
    two enumerations stay below their limits and the fade time is 0 or
    within its range. *)
Definition record_in_range {limits : Lighting_Limits} (p : object_data)
    : Prop :=
  In_Progress p < BACNET_COLOR_OPERATION_IN_PROGRESS_MAX
  ∧ Transition p < BACNET_COLOR_TRANSITION_MAX
  ∧ (Default_Fade_Time p = 0
     ∨ BACNET_COLOR_FADE_TIME_MIN ≤ Default_Fade_Time p
       ≤ BACNET_COLOR_FADE_TIME_MAX).

Definition records_in_range {limits : Lighting_Limits} (s : device) : Prop :=
  ∀ (object_instance : Z) (pObject : object_data),
    Keylist_Data (Object_List s) object_instance = Some pObject →
    record_in_range pObject.

(** Modelled from the spec: lighting.c is missing.  A copy that leaves in
    the destination what the source holds. *)
Definition structure_copy : Lighting :=
  {| color_command_copy := λ _ src, src |}.

(** The limits the protocol fixes: fade times of 100 ms to one day, three
    transitions. *)
Definition standard_limits : Lighting_Limits :=
  {| BACNET_COLOR_FADE_TIME_MIN := 100;
     BACNET_COLOR_FADE_TIME_MAX := 86400000;
     BACNET_COLOR_TRANSITION_MAX := 3 |}.

(** A request like [wp_data] at another priority. *)
Definition with_priority (priority : Z) (wp_data : BACNET_WRITE_PROPERTY_DATA)
    : BACNET_WRITE_PROPERTY_DATA :=
  {| WP.object_type := WP.object_type wp_data;
     WP.object_instance := WP.object_instance wp_data;
     WP.object_property := WP.object_property wp_data;
     WP.array_index := WP.array_index wp_data;
     WP.application_data := WP.application_data wp_data;
     WP.application_data_len := WP.application_data_len wp_data;
     WP.priority := priority;
     WP.error_class := WP.error_class wp_data;
     WP.error_code := WP.error_code wp_data |}.

(** ** A codec for the primitive application tags

    The handlers are proved for every codec; this one instantiates them on
    concrete octets. *)

(** Modelled from the spec: bacdcode.c is missing.  Multi-octet numbers are
    big-endian. *)
Fixpoint big_endian (octets : nat) (v : Z) : list Z :=
  match octets with
  | O => []
  | S octets' => big_endian octets' (Z.shiftr v 8) ++ [Z.land v 255]
  end.

(** Modelled from the spec: bacdcode.c is missing.  An unsigned number
    takes the fewest octets that hold it. *)
Definition unsigned_length (v : Z) : nat :=
  if v <? 2 ^ 8 then 1
  else if v <? 2 ^ 16 then 2
  else if v <? 2 ^ 24 then 3
  else if v <? 2 ^ 32 then 4
  else if v <? 2 ^ 40 then 5
  else if v <? 2 ^ 48 then 6
  else if v <? 2 ^ 56 then 7
  else 8.

(** Modelled from the spec: bacdcode.c is missing.  The tag octet holds the
    tag number in bits 4-7 (15: the number follows in the next octet), the
    class in bit 3 (set: context specific) and the length or value in bits
    0-2 (5: the length follows, one octet below 254, 254 and two octets up
    to 65535, 255 and four octets above). *)
Definition encode_tag (tag_number : Z) (context_specific : bool)
    (len_value_type : Z) : list Z :=
  let number := if tag_number <=? 14 then Z.shiftl tag_number 4 else 240 in
  let class := if context_specific then 8 else 0 in
  let lvt := if len_value_type <=? 4 then len_value_type else 5 in
  [Z.lor number (Z.lor class lvt)]
  ++ (if tag_number <=? 14 then [] else [tag_number])
  ++ (if len_value_type <=? 4 then []
      else if len_value_type <? 254 then [len_value_type]
      else if len_value_type <=? 65535
           then 254 :: big_endian 2 len_value_type
           else 255 :: big_endian 4 len_value_type).

(** Modelled from the spec: bacdcode.c is missing.  An unsigned or an
    enumerated value under its application tag. *)
Definition encode_unsigned_as (tag_number : Z) (v : Z) : list Z :=
  encode_tag tag_number false (Z.of_nat (unsigned_length v))
  ++ big_endian (unsigned_length v) v.

(** Modelled from the spec: bacdcode.c is missing.  An object identifier
    is a 32-bit field of a 10-bit type code and a 22-bit instance number. *)
Definition encode_object_id (t : BACNET_OBJECT_TYPE) (instance : Z) : list Z :=
  encode_tag 12 false 4
  ++ big_endian 4
       (Z.lor (Z.shiftl (Z.land (object_type_code t) 1023) 22)
              (Z.land instance BACNET_MAX_INSTANCE)).

(** Modelled from the spec: bacdcode.c is missing.  The octets of a text. *)
Definition string_octets (text : string) : list Z :=
  (λ c, Z.of_N (Ascii.N_of_ascii c)) <$> String.list_ascii_of_string text.

(** Modelled from the spec: bacdcode.c is missing.  A character string is
    its character-set octet (0) and its text. *)
Definition encode_character_string (text : string) : list Z :=
  encode_tag 7 false (1 + Z.of_nat (String.length text))
  ++ 0 :: string_octets text.

(** Modelled from the spec: lighting.c is missing.  The operation of the
    command as a context-tagged enumerated value. *)
Definition encode_color_command (command : BACNET_COLOR_COMMAND) : list Z :=
  encode_tag 0 true 1 ++ [Z.land (operation command) 255].

(** Modelled from the spec: bacdcode.c is missing. *)
Definition decode_unsigned (octets : list Z) : Z :=
  fold_left (λ acc octet, acc * 256 + octet) octets 0.

(** Modelled from the spec: bacdcode.c is missing.  Tag number, class,
    length or value, and the octets the tag took; nothing when the buffer
    ends early or the length is written longer than its magnitude needs. *)
Definition decode_tag_number_and_value (apdu : list Z)
    : option (Z * bool * Z * nat) :=
  match apdu with
  | [] => None
  | first :: rest =>
      let context_specific := Z.testbit first 3 in
      let lvt := Z.land first 7 in
      let number :=
        if Z.shiftr first 4 =? 15
        then match rest with
             | [] => None
             | extended :: rest' => Some (extended, rest', 2%nat)
             end
        else Some (Z.shiftr first 4, rest, 1%nat) in
      match number with
      | None => None
      | Some (tag_number, rest, used) =>
          if lvt <? 5 then Some (tag_number, context_specific, lvt, used)
          else if lvt =? 5 then
            match rest with
            | [] => None
            | len :: rest' =>
                if len <? 254 then
                  if 4 <? len
                  then Some (tag_number, context_specific, len, S used)
                  else None
                else if len =? 254 then
                  match rest' with
                  | hi :: lo :: _ =>
                      if 254 <=? decode_unsigned [hi; lo]
                      then Some (tag_number, context_specific,
                                 decode_unsigned [hi; lo], (used + 3)%nat)
                      else None
                  | _ => None
                  end
                else
                  match rest' with
                  | o3 :: o2 :: o1 :: o0 :: _ =>
                      if 65535 <? decode_unsigned [o3; o2; o1; o0]
                      then Some (tag_number, context_specific,
                                 decode_unsigned [o3; o2; o1; o0],
                                 (used + 5)%nat)
                      else None
                  | _ => None
                  end
            end
          else None
      end
  end.

(** Modelled from the spec: bacapp.c is missing.  One application-tagged
    primitive value from the first [apdu_len] octets: the value of a Boolean
    sits in the tag octet, every other kind has its payload behind the tag.
    The result is [BACNET_STATUS_ERROR] on an empty or context-tagged
    buffer and on a length that exceeds what is left. *)
Definition decode_application_data (apdu : list Z) (apdu_len : Z)
    : Z * BACNET_APPLICATION_DATA_VALUE :=
  let failure := (BACNET_STATUS_ERROR, {| tag := 16; Unsigned_Int := 0 |}) in
  let slice := take (Z.to_nat apdu_len) apdu in
  match decode_tag_number_and_value slice with
  | Some (tag_number, false, lvt, used) =>
      if tag_number =? BACNET_APPLICATION_TAG_BOOLEAN then
        if lvt <=? 1
        then (Z.of_nat used, {| tag := tag_number; Unsigned_Int := 0 |})
        else failure
      else
        let payload := take (Z.to_nat lvt) (drop used slice) in
        if Z.of_nat (length payload) <? lvt then failure
        else if tag_number =? BACNET_APPLICATION_TAG_UNSIGNED_INT then
          if (1 <=? lvt) && (lvt <=? 8)
          then (Z.of_nat used + lvt,
                {| tag := tag_number; Unsigned_Int := decode_unsigned payload |})
          else failure
        else if tag_number <=? 12
        then (Z.of_nat used + lvt, {| tag := tag_number; Unsigned_Int := 0 |})
        else failure
  | _ => failure
  end.

(** Modelled from the spec: the codec of bacdcode.c, bacapp.c and
    lighting.c, which are missing. *)
Definition bacdcode : Tag_Codec :=
  {| bacapp_decode_application_data := decode_application_data;
     encode_application_object_id := encode_object_id;
     encode_application_character_string := encode_character_string;
     encode_application_enumerated :=
       encode_unsigned_as BACNET_APPLICATION_TAG_ENUMERATED;
     encode_application_unsigned :=
       encode_unsigned_as BACNET_APPLICATION_TAG_UNSIGNED_INT;
     color_command_encode := encode_color_command |}.

(** ** Sample devices and requests *)

Definition memory_available : heap :=
  {| calloc_succeeds := true; keylist_has_room := true |}.

Definition memory_exhausted : heap :=
  {| calloc_succeeds := false; keylist_has_room := true |}.

Definition keylist_full : heap :=
  {| calloc_succeeds := true; keylist_has_room := false |}.

(** A device right after [Color_Temperature_Init]. *)
Definition device_started : device :=
  Color_Temperature_Init
    {| Object_List := None;
       Color_Temperature_Write_Present_Value_Callback := false;
       Present_Value_Indications := [];
       Database_Revision := 0;
       Device_Objects := [] |}.

(** Instances 1, 2 and 3 created, in that order. *)
Definition device_123 : device :=
  snd (Color_Temperature_Create memory_available 3
    (snd (Color_Temperature_Create memory_available 2
      (snd (Color_Temperature_Create memory_available 1 device_started))))).

(** ... and instance 2 deleted again. *)
Definition device_13 : device :=
  snd (Color_Temperature_Delete 2 device_123).

(** Instance 1 alone. *)
Definition device_1 : device :=
  snd (Color_Temperature_Create memory_available 1 device_started).

Definition device_1_enabled : device :=
  Color_Temperature_Write_Enable 1 device_1.

(** A WriteProperty request for instance 1 that carries [octets]. *)
Definition write_request (property : BACNET_PROPERTY_ID) (index : Z)
    (octets : list Z) : BACNET_WRITE_PROPERTY_DATA :=
  {| WP.object_type := OBJECT_COLOR_TEMPERATURE;
     WP.object_instance := 1;
     WP.object_property := property;
     WP.array_index := index;
     WP.application_data := octets;
     WP.application_data_len := Z.of_nat (length octets);
     WP.priority := BACNET_NO_PRIORITY;
     WP.error_class := ERROR_CLASS_DEVICE;
     WP.error_code := ERROR_CODE_OTHER |}.

(** A ReadProperty request for instance 1 with a buffer of [room] octets. *)
Definition read_request (property : BACNET_PROPERTY_ID) (index : Z)
    (room : nat) : BACNET_READ_PROPERTY_DATA :=
  {| RP.object_type := OBJECT_COLOR_TEMPERATURE;
     RP.object_instance := 1;
     RP.object_property := property;
     RP.array_index := index;
     RP.application_data := Some (replicate room 0);
     RP.application_data_len := Z.of_nat room;
     RP.error_class := ERROR_CLASS_DEVICE;
     RP.error_code := ERROR_CODE_OTHER |}.

(** What the local [char_string] of the read handler holds on entry, in the
    samples. *)
Definition stale_text : string := "left on the stack".

(** Instance 1 after its name was written as "Lamp". *)
Definition device_named : device :=
  snd (Color_Temperature_Name_Set 1 (Some "Lamp"%string) device_1).

(** Instance 1 beside a Color object, instance 1 as well, named "Spot". *)
Definition device_with_color : device :=
  {| Object_List := Object_List device_1;
     Color_Temperature_Write_Present_Value_Callback := false;
     Present_Value_Indications := [];
     Database_Revision := Database_Revision device_1;
     Device_Objects := [(OBJECT_COLOR, 1, "Spot"%string)] |}.

(** The octets of the unsigned value 4000. *)
Definition octets_4000 : list Z := [34; 15; 160].

(** Instance 1 with writes enabled and a present-value callback set. *)
Definition device_1_watched : device :=
  Color_Temperature_Write_Present_Value_Callback_Set true device_1_enabled.

(** A Present Value write of 4000 to instance 1. *)
Definition write_4000 : BACNET_WRITE_PROPERTY_DATA :=
  write_request PROP_PRESENT_VALUE BACNET_ARRAY_ALL octets_4000.

(** A run of calls that tries values on both sides of every guard. *)
Definition sample_calls : list call :=
  [ Call_Create memory_available 1;
    Call_Create memory_available BACNET_MAX_INSTANCE;
    Call_Write_Enable 1;
    Call_Default_Fade_Time_Set 1 50;
    Call_Default_Fade_Time_Set 2 2000;
    Call_Transition_Set 1 7;
    Call_Transition_Set 2 1;
    Call_In_Progress_Set 1 9;
    Call_In_Progress_Set 2 3;
    Call_Write_Property write_4000;
    Call_Command_Set 2 (Some {| operation := 1 |});
    Call_Name_Set 2 (Some "Lamp"%string);
    Call_Delete 1 ].


(** The store of [device_13], written out. *)
Definition store_13 : gmap Z object_data :=
  delete 2 (<[3 := created_object]>
              (<[2 := created_object]> (<[1 := created_object]> ∅))).

(** * Properties *)

(** ** The keyed store *)

Lemma keys_from_shrink (m : gmap Z object_data) (key : Z) (p : object_data) :
  m !! key = Some p →
  (size (filter (λ k : Z, (key + 1 ≤ k)%Z) (dom m))
   < size (filter (λ k : Z, (key ≤ k)%Z) (dom m)))%nat.
Proof.
  intros Hkey. apply subset_size. split.
  - intros k. rewrite !elem_of_filter. intros [? ?]. split; [lia | done].
  - intros Hsub.
    assert (Hin : key ∈ filter (λ k : Z, (key ≤ k)%Z) (dom m)).
    { apply elem_of_filter. split; [lia |]. apply elem_of_dom. eauto. }
    apply Hsub in Hin. apply elem_of_filter in Hin as [? _]. lia.
Qed.

Lemma Keylist_Next_Empty_Key_loop_spec (steps : nat) :
  ∀ (m : gmap Z object_data) (key : Z),
    (size (filter (λ k : Z, (key ≤ k)%Z) (dom m)) < steps)%nat →
    key ≤ Keylist_Next_Empty_Key_loop steps m key
    ∧ m !! Keylist_Next_Empty_Key_loop steps m key = None
    ∧ ∀ j, key ≤ j < Keylist_Next_Empty_Key_loop steps m key →
           is_Some (m !! j).
Proof.
  induction steps as [| steps IH]; intros m key Hsize; [lia |].
  simpl. destruct (m !! key) as [p |] eqn:Hkey.
  - destruct (IH m (key + 1)) as (Hle & Hfree & Htaken).
    { pose proof (keys_from_shrink m key p Hkey). lia. }
    split; [lia |]. split; [done |].
    intros j Hj. destruct (decide (j = key)) as [-> | Hne]; [eauto |].
    apply Htaken. lia.
  - split; [lia |]. split; [done |]. intros j Hj. lia.
Qed.

(** The walk ends on the lowest key at or above the start that the list
    does not hold. *)
Lemma Keylist_Next_Empty_Key_spec (m : gmap Z object_data) (key : Z) :
  key ≤ Keylist_Next_Empty_Key (Some m) key
  ∧ m !! Keylist_Next_Empty_Key (Some m) key = None
  ∧ ∀ j, key ≤ j < Keylist_Next_Empty_Key (Some m) key → is_Some (m !! j).
Proof.
  apply Keylist_Next_Empty_Key_loop_spec.
  assert (Hsub : filter (λ k : Z, (key ≤ k)%Z) (dom m) ⊆ dom m)
    by (intros k [? ?]%elem_of_filter; done).
  apply subseteq_size in Hsub. rewrite size_dom in Hsub. lia.
Qed.

Lemma Keylist_Next_Empty_Key_free (lst : OS_Keylist) (key : Z) :
  Keylist_Data lst (Keylist_Next_Empty_Key lst key) = None.
Proof.
  destruct lst as [m |]; [| done]. apply Keylist_Next_Empty_Key_spec.
Qed.

(** ** Create and delete *)

(** What a create does once the instance number is settled: nothing when
    the instance is live, a new record and one revision step when there is
    memory, the sentinel otherwise. *)
Lemma Create_absent (mem : heap) (object_instance : Z) (s : device) :
  object_instance < BACNET_MAX_INSTANCE →
  Keylist_Data (Object_List s) object_instance = None →
  Color_Temperature_Create mem object_instance s =
    match Object_List s with
    | Some m =>
        if calloc_succeeds mem && keylist_has_room mem
        then (object_instance,
              Device_Inc_Database_Revision
                (with_Object_List
                   (Some (<[object_instance := created_object]> m)) s))
        else (BACNET_MAX_INSTANCE, s)
    | None => (BACNET_MAX_INSTANCE, s)
    end.
Proof.
  intros Hlt Habsent. unfold Color_Temperature_Create.
  destruct (Z.ltb_spec BACNET_MAX_INSTANCE object_instance); [lia |].
  destruct (Z.eqb_spec object_instance BACNET_MAX_INSTANCE); [lia |].
  rewrite Habsent. unfold Keylist_Data_Add.
  destruct (Object_List s) as [m |], (calloc_succeeds mem),
    (keylist_has_room mem); simpl; try reflexivity.
  destruct (Z.leb_spec 0 (Z.of_nat (length (filter (λ k : Z, k < object_instance)
              (merge_sort Z.le (map_to_list m).*1))))); [reflexivity | lia].
Qed.

Lemma Create_wildcard (mem : heap) (s : device) :
  Color_Temperature_Create mem BACNET_MAX_INSTANCE s =
    let object_instance := Keylist_Next_Empty_Key (Object_List s) 1 in
    match Object_List s with
    | Some m =>
        if calloc_succeeds mem && keylist_has_room mem
        then (object_instance,
              Device_Inc_Database_Revision
                (with_Object_List
                   (Some (<[object_instance := created_object]> m)) s))
        else (BACNET_MAX_INSTANCE, s)
    | None => (BACNET_MAX_INSTANCE, s)
    end.
Proof.
  unfold Color_Temperature_Create.
  destruct (Z.ltb_spec BACNET_MAX_INSTANCE BACNET_MAX_INSTANCE); [lia |].
  rewrite Z.eqb_refl, Keylist_Next_Empty_Key_free. unfold Keylist_Data_Add.
  destruct (Object_List s) as [m |], (calloc_succeeds mem),
    (keylist_has_room mem); simpl; try reflexivity.
  match goal with |- context [0 <=? ?x] => destruct (Z.leb_spec 0 x) end;
    [reflexivity | lia].
Qed.

(** C2.  A create with the wildcard instance [BACNET_MAX_INSTANCE], in an
    initialised store and with memory for the record, returns the lowest
    instance number at or above the start value 1 that the store does not
    hold, gaps left by deletions included, and adds the new record under
    that number. *)
Theorem Create_wildcard_lowest_unused (mem : heap) (s : device)
    (m : gmap Z object_data) :
  Object_List s = Some m →
  calloc_succeeds mem = true →
  keylist_has_room mem = true →
  ∃ (r : Z) (s' : device),
    Color_Temperature_Create mem BACNET_MAX_INSTANCE s = (r, s')
    ∧ 1 ≤ r
    ∧ m !! r = None
    ∧ (∀ j, 1 ≤ j < r → is_Some (m !! j))
    ∧ Object_List s' = Some (<[r := created_object]> m).
Proof.
  intros Hlist Hcalloc Hroom.
  rewrite Create_wildcard, Hlist, Hcalloc, Hroom. cbn zeta. simpl andb.
  destruct (Keylist_Next_Empty_Key_spec m 1) as (Hle & Hfree & Htaken).
  eexists _, _. split; [reflexivity |]. repeat split; assumption.
Qed.

(** After creating 1, 2 and 3 and deleting 2, the wildcard create yields 2. *)
Lemma Create_wildcard_fills_gap :
  (Color_Temperature_Create memory_available BACNET_MAX_INSTANCE device_13).1
  = 2.
Proof.
  assert (Hlist : Object_List device_13 = Some store_13)
    by (vm_compute; reflexivity).
  destruct (Create_wildcard_lowest_unused memory_available device_13 store_13
              Hlist eq_refl eq_refl)
    as (r & s' & -> & Hle & Hfree & Htaken & _).
  simpl. destruct (Z.lt_trichotomy r 2) as [Hlt | [-> | Hgt]].
  - assert (r = 1) as -> by lia. vm_compute in Hfree. discriminate.
  - reflexivity.
  - destruct (Htaken 2 ltac:(lia)) as [p Hp]. vm_compute in Hp. discriminate.
Defined.

(** C9.  A create of an instance that is live, with a number in the valid
    range, returns that number and changes nothing: not the record, not the
    store, not the revision counter; whether there is memory plays no part. *)
Theorem Create_existing_is_idempotent (mem : heap) (object_instance : Z)
    (s : device) (pObject : object_data) :
  Keylist_Data (Object_List s) object_instance = Some pObject →
  object_instance < BACNET_MAX_INSTANCE →
  Color_Temperature_Create mem object_instance s = (object_instance, s).
Proof.
  intros Hlive Hlt. unfold Color_Temperature_Create.
  destruct (Z.ltb_spec BACNET_MAX_INSTANCE object_instance); [lia |].
  destruct (Z.eqb_spec object_instance BACNET_MAX_INSTANCE); [lia |].
  by rewrite Hlive.
Qed.

Lemma Create_existing_sample :
  Keylist_Data (Object_List device_1) 1 = Some created_object
  ∧ Color_Temperature_Create memory_exhausted 1 device_1 = (1, device_1).
Proof.
  assert (Hlive : Keylist_Data (Object_List device_1) 1 = Some created_object)
    by (vm_compute; reflexivity).
  split; [exact Hlive |].
  apply (Create_existing_is_idempotent memory_exhausted 1 device_1
           created_object Hlive).
  unfold BACNET_MAX_INSTANCE. lia.
Defined.

(** C8.  Create reports failure with the sentinel [BACNET_MAX_INSTANCE] and
    no error pair.  A requested instance above the sentinel, and a create
    that needs a new record (the wildcard, or a number that is not live)
    while [calloc] fails, the key list has no room or the list was never
    created, return the sentinel and leave the device as it was.  Every
    number of 0..4194302 is a valid instance: with memory at hand the
    create returns it and the instance is live afterwards. *)
Theorem Create_failure_is_the_sentinel (mem : heap) (object_instance : Z)
    (s : device) :
  (BACNET_MAX_INSTANCE < object_instance →
   Color_Temperature_Create mem object_instance s = (BACNET_MAX_INSTANCE, s))
  ∧ (object_instance ≤ BACNET_MAX_INSTANCE →
     object_instance = BACNET_MAX_INSTANCE
     ∨ Keylist_Data (Object_List s) object_instance = None →
     calloc_succeeds mem = false ∨ keylist_has_room mem = false
     ∨ Object_List s = None →
     Color_Temperature_Create mem object_instance s = (BACNET_MAX_INSTANCE, s))
  ∧ (0 ≤ object_instance ≤ 4194302 →
     calloc_succeeds mem = true → keylist_has_room mem = true →
     is_Some (Object_List s) →
     (Color_Temperature_Create mem object_instance s).1 = object_instance
     ∧ Color_Temperature_Valid_Instance
         (Color_Temperature_Create mem object_instance s).2 object_instance
       = true).
Proof.
  split; [| split].
  - intros Hgt. unfold Color_Temperature_Create.
    destruct (Z.ltb_spec BACNET_MAX_INSTANCE object_instance); [done | lia].
  - intros Hle Hnew Hfail.
    destruct (decide (object_instance = BACNET_MAX_INSTANCE)) as [-> | Hne].
    + rewrite Create_wildcard. cbn zeta.
      destruct (Object_List s), (calloc_succeeds mem), (keylist_has_room mem);
        simpl in *; try reflexivity; destruct Hfail as [? | [? | ?]]; done.
    + destruct Hnew as [? | Habsent]; [done |].
      rewrite Create_absent by (done || lia).
      destruct (Object_List s), (calloc_succeeds mem), (keylist_has_room mem);
        simpl in *; try reflexivity; destruct Hfail as [? | [? | ?]]; done.
  - intros Hrange Hcalloc Hroom [m Hlist].
    assert (Hlt : object_instance < BACNET_MAX_INSTANCE)
      by (unfold BACNET_MAX_INSTANCE; lia).
    destruct (Keylist_Data (Object_List s) object_instance) as [p |] eqn:Hlive.
    + unfold Color_Temperature_Create.
      destruct (Z.ltb_spec BACNET_MAX_INSTANCE object_instance); [lia |].
      destruct (Z.eqb_spec object_instance BACNET_MAX_INSTANCE); [lia |].
      rewrite Hlive. simpl.
      unfold Color_Temperature_Valid_Instance. by rewrite Hlive.
    + rewrite Create_absent, Hlist, Hcalloc, Hroom by done. simpl.
      unfold Color_Temperature_Valid_Instance. simpl.
      by rewrite lookup_insert_eq.
Qed.

Lemma Create_failure_samples :
  Color_Temperature_Create memory_available 4194304 device_1
  = (BACNET_MAX_INSTANCE, device_1)
  ∧ Color_Temperature_Create memory_exhausted 7 device_1
    = (BACNET_MAX_INSTANCE, device_1)
  ∧ Color_Temperature_Create keylist_full BACNET_MAX_INSTANCE device_1
    = (BACNET_MAX_INSTANCE, device_1)
  ∧ (Color_Temperature_Create memory_available 4194302 device_1).1 = 4194302.
Proof.
  split; [| split; [| split]].
  - apply (proj1 (Create_failure_is_the_sentinel memory_available 4194304
                    device_1)).
    unfold BACNET_MAX_INSTANCE. lia.
  - apply (proj1 (proj2 (Create_failure_is_the_sentinel memory_exhausted 7
                           device_1))).
    + unfold BACNET_MAX_INSTANCE. lia.
    + right. vm_compute. reflexivity.
    + left. reflexivity.
  - apply (proj1 (proj2 (Create_failure_is_the_sentinel keylist_full
                           BACNET_MAX_INSTANCE device_1))).
    + lia.
    + left. reflexivity.
    + right. left. reflexivity.
  - apply (proj2 (proj2 (Create_failure_is_the_sentinel memory_available
                           4194302 device_1))).
    + lia.
    + reflexivity.
    + reflexivity.
    + vm_compute. eauto.
Defined.

Lemma Delete_live (object_instance : Z) (s : device) (m : gmap Z object_data)
    (pObject : object_data) :
  Object_List s = Some m →
  m !! object_instance = Some pObject →
  Color_Temperature_Delete object_instance s =
    (true,
     Device_Inc_Database_Revision
       (with_Object_List (Some (delete object_instance m)) s)).
Proof.
  intros Hlist Hlive. unfold Color_Temperature_Delete, Keylist_Data_Delete.
  by rewrite Hlist, Hlive.
Qed.

(** A create that returns with a record under a number that held none
    before has taken one revision step. *)
Lemma Create_adds_steps_revision (mem : heap) (object_instance : Z)
    (s s' : device) (r : Z) :
  Color_Temperature_Create mem object_instance s = (r, s') →
  Keylist_Data (Object_List s) r = None →
  is_Some (Keylist_Data (Object_List s') r) →
  Database_Revision s' = to_uint32 (Database_Revision s + 1).
Proof.
  intros Hcreate Hbefore [p Hafter].
  assert (Hsame : s' = s → False) by (intros ->; congruence).
  destruct (Z.lt_trichotomy object_instance BACNET_MAX_INSTANCE)
    as [Hlt | [-> | Hgt]].
  - destruct (Keylist_Data (Object_List s) object_instance) as [q |] eqn:Hq.
    + unfold Color_Temperature_Create in Hcreate.
      destruct (Z.ltb_spec BACNET_MAX_INSTANCE object_instance); [lia |].
      destruct (Z.eqb_spec object_instance BACNET_MAX_INSTANCE); [lia |].
      rewrite Hq in Hcreate. simplify_eq.
    + rewrite Create_absent in Hcreate by done.
      destruct (Object_List s), (calloc_succeeds mem), (keylist_has_room mem);
        simpl in Hcreate; simplify_eq; try done.
  - rewrite Create_wildcard in Hcreate. cbn zeta in Hcreate.
    destruct (Object_List s), (calloc_succeeds mem), (keylist_has_room mem);
      simpl in Hcreate; simplify_eq; try done.
  - unfold Color_Temperature_Create in Hcreate.
    destruct (Z.ltb_spec BACNET_MAX_INSTANCE object_instance); [| lia].
    simplify_eq.
Qed.

(** ** The handlers *)

Section Handler_Properties.
Context {codec : Tag_Codec}.

(** No path of the write handler touches the revision counter. *)
Lemma Write_Property_keeps_revision (wp_data : BACNET_WRITE_PROPERTY_DATA)
    (s : device) :
  Database_Revision (Color_Temperature_Write_Property wp_data s).2
  = Database_Revision s.
Proof.
  unfold Color_Temperature_Write_Property, write_property_type_valid,
    Color_Temperature_Present_Value_Write.
  repeat case_match; simplify_eq; reflexivity.
Qed.

(** C5.  A write request whose application data the decoder rejects (it
    returns a negative length) fails with the error pair (property,
    value-out-of-range), and the device is left as it was. *)
Theorem Write_Property_decode_failure (wp_data : BACNET_WRITE_PROPERTY_DATA)
    (s : device) :
  (bacapp_decode_application_data (WP.application_data wp_data)
     (WP.application_data_len wp_data)).1 < 0 →
  Color_Temperature_Write_Property wp_data s =
    (false,
     WP.with_error ERROR_CLASS_PROPERTY ERROR_CODE_VALUE_OUT_OF_RANGE wp_data,
     s).
Proof.
  intros Hlen. unfold Color_Temperature_Write_Property.
  destruct (bacapp_decode_application_data _ _) as [len value]. simpl in Hlen.
  destruct (Z.ltb_spec len 0); [reflexivity | lia].
Qed.

(** C6, as the code has it.  The handler decodes before it looks at the
    array index: a write to a property that is no array, with an array index
    other than [BACNET_ARRAY_ALL], fails with (property, value-out-of-range)
    when the data does not decode and with (property,
    property-is-not-an-array) when it does; the device is left as it was in
    both cases. *)
Theorem Write_Property_decodes_before_array_check
    (wp_data : BACNET_WRITE_PROPERTY_DATA) (s : device) :
  WP.object_property wp_data ≠ PROP_PRIORITY_ARRAY →
  WP.object_property wp_data ≠ PROP_EVENT_TIME_STAMPS →
  WP.array_index wp_data ≠ BACNET_ARRAY_ALL →
  ((bacapp_decode_application_data (WP.application_data wp_data)
      (WP.application_data_len wp_data)).1 < 0 →
   Color_Temperature_Write_Property wp_data s =
     (false,
      WP.with_error ERROR_CLASS_PROPERTY ERROR_CODE_VALUE_OUT_OF_RANGE wp_data,
      s))
  ∧ (0 ≤ (bacapp_decode_application_data (WP.application_data wp_data)
            (WP.application_data_len wp_data)).1 →
     Color_Temperature_Write_Property wp_data s =
       (false,
        WP.with_error ERROR_CLASS_PROPERTY ERROR_CODE_PROPERTY_IS_NOT_AN_ARRAY
          wp_data,
        s)).
Proof.
  intros Hpriority Hstamps Hindex. unfold Color_Temperature_Write_Property.
  destruct (bacapp_decode_application_data _ _) as [len value]. simpl.
  split; intros Hlen; destruct (Z.ltb_spec len 0); try lia; [reflexivity |].
  by rewrite !bool_decide_eq_true_2.
Qed.


(** Every property of the object's lists is encoded by the switch of the
    read handler, and none of them is one of the two array properties. *)
Lemma Read_Property_switch_supported (s : device) (char_string : string)
    (rp : BACNET_READ_PROPERTY_DATA) (apdu : list Z) :
  RP.object_property rp ∈
    Color_Temperature_Properties_Required
    ++ Color_Temperature_Properties_Optional →
  0 ≤ (Read_Property_switch s char_string rp apdu).1
  ∧ RP.object_property rp ≠ PROP_PRIORITY_ARRAY
  ∧ RP.object_property rp ≠ PROP_EVENT_TIME_STAMPS.
Proof.
  unfold Color_Temperature_Properties_Required,
    Color_Temperature_Properties_Optional. simpl app.
  rewrite !elem_of_cons, elem_of_nil. unfold Read_Property_switch, encoded.
  intros Hin.
  repeat (destruct Hin as [Hin | Hin]); try done; rewrite Hin;
    (split; [| split; discriminate]); simpl; try lia.
  destruct (Color_Temperature_Command _ _); simpl; lia.
Qed.

(** C4, as the code has it.  A read of any property of the object's
    required and optional lists (none of them is an array) that carries an
    array index other than [BACNET_ARRAY_ALL], in a request with a buffer
    to answer into (the buffer is not NULL and its declared length is not
    0), returns [BACNET_STATUS_ERROR] with the error pair (property,
    property-is-not-an-array), whatever the local character string of the
    handler held on entry. *)
Theorem Read_Property_index_on_non_array (s : device) (char_string : string)
    (rp : BACNET_READ_PROPERTY_DATA) (apdu : list Z) :
  RP.object_property rp ∈
    Color_Temperature_Properties_Required
    ++ Color_Temperature_Properties_Optional →
  RP.application_data rp = Some apdu →
  RP.application_data_len rp ≠ 0 →
  RP.array_index rp ≠ BACNET_ARRAY_ALL →
  ∃ rp' : BACNET_READ_PROPERTY_DATA,
    Color_Temperature_Read_Property s char_string (Some rp)
    = (BACNET_STATUS_ERROR, Some rp')
    ∧ RP.error_class rp' = ERROR_CLASS_PROPERTY
    ∧ RP.error_code rp' = ERROR_CODE_PROPERTY_IS_NOT_AN_ARRAY.
Proof.
  intros Hin Hbuffer Hroom Hindex.
  destruct (Read_Property_switch_supported s char_string rp apdu Hin)
    as (Hlen & Hpriority & Hstamps).
  unfold Color_Temperature_Read_Property. rewrite Hbuffer.
  destruct (Z.eqb_spec (RP.application_data_len rp) 0); [done |].
  destruct (Read_Property_switch s char_string rp apdu) as [apdu_len rp1].
  simpl in Hlen.
  destruct (Z.leb_spec 0 apdu_len); [| lia].
  rewrite !bool_decide_eq_true_2 by done. simpl.
  eexists. split; [reflexivity |]. split; reflexivity.
Qed.

(** C10.  With no request structure, no buffer, or a buffer length of 0
    the read handler returns 0, whatever the property and the array index:
    not [BACNET_STATUS_ERROR], and the request, its error pair included, is
    left as it was. *)
Theorem Read_Property_without_buffer (s : device) (char_string : string)
    (rpdata : option BACNET_READ_PROPERTY_DATA) :
  rpdata = None
  ∨ (∃ rp, rpdata = Some rp
           ∧ (RP.application_data rp = None
              ∨ RP.application_data_len rp = 0)) →
  Color_Temperature_Read_Property s char_string rpdata = (0, rpdata)
  ∧ (Color_Temperature_Read_Property s char_string rpdata).1
    ≠ BACNET_STATUS_ERROR.
Proof.
  intros Hcase.
  assert (Hzero :
    Color_Temperature_Read_Property s char_string rpdata = (0, rpdata)).
  { unfold Color_Temperature_Read_Property.
    destruct Hcase as [-> | (rp & -> & [Hnull | Hlen])]; [done | |].
    - by rewrite Hnull.
    - rewrite Hlen. simpl. by destruct (RP.application_data rp). }
  split; [exact Hzero |]. rewrite Hzero. discriminate.
Qed.

(** C7, as the code has it.  A create that adds a record and a delete that
    removes one each add one to the device-wide database revision counter;
    a write through the write handler, an enabled Present Value write
    included, leaves the counter as it was. *)
Theorem Revision_counts_creates_and_deletes :
  (∀ (mem : heap) (object_instance r : Z) (s s' : device),
     Color_Temperature_Create mem object_instance s = (r, s') →
     Keylist_Data (Object_List s) r = None →
     is_Some (Keylist_Data (Object_List s') r) →
     Database_Revision s' = to_uint32 (Database_Revision s + 1))
  ∧ (∀ (object_instance : Z) (s : device),
       is_Some (Keylist_Data (Object_List s) object_instance) →
       ∃ s' : device,
         Color_Temperature_Delete object_instance s = (true, s')
         ∧ Keylist_Data (Object_List s') object_instance = None
         ∧ Database_Revision s' = to_uint32 (Database_Revision s + 1))
  ∧ (∀ (wp_data : BACNET_WRITE_PROPERTY_DATA) (s : device),
       Database_Revision (Color_Temperature_Write_Property wp_data s).2
       = Database_Revision s).
Proof.
  split; [| split].
  - intros mem object_instance r s s'. apply Create_adds_steps_revision.
  - intros object_instance s [pObject Hlive].
    destruct (Object_List s) as [m |] eqn:Hlist; [| done]. simpl in Hlive.
    rewrite (Delete_live object_instance s m pObject Hlist Hlive).
    eexists. split; [reflexivity |]. split; [| reflexivity].
    simpl. apply lookup_delete_eq.
  - apply Write_Property_keeps_revision.
Qed.

End Handler_Properties.

(** ** The handlers on the sample device, with the codec [bacdcode] *)

Lemma Write_Property_decode_failure_sample :
  Color_Temperature_Write_Property (codec := bacdcode)
    (write_request PROP_PRESENT_VALUE BACNET_ARRAY_ALL []) device_1_enabled
  = (false,
     WP.with_error ERROR_CLASS_PROPERTY ERROR_CODE_VALUE_OUT_OF_RANGE
       (write_request PROP_PRESENT_VALUE BACNET_ARRAY_ALL []),
     device_1_enabled).
Proof.
  apply (Write_Property_decode_failure (codec := bacdcode)).
  vm_compute. reflexivity.
Defined.

Lemma Write_Property_decodes_before_array_check_sample :
  Color_Temperature_Write_Property (codec := bacdcode)
    (write_request PROP_PRESENT_VALUE 0 []) device_1_enabled
  = (false,
     WP.with_error ERROR_CLASS_PROPERTY ERROR_CODE_VALUE_OUT_OF_RANGE
       (write_request PROP_PRESENT_VALUE 0 []),
     device_1_enabled)
  ∧ Color_Temperature_Write_Property (codec := bacdcode)
      (write_request PROP_PRESENT_VALUE 0 octets_4000) device_1_enabled
    = (false,
       WP.with_error ERROR_CLASS_PROPERTY ERROR_CODE_PROPERTY_IS_NOT_AN_ARRAY
         (write_request PROP_PRESENT_VALUE 0 octets_4000),
       device_1_enabled).
Proof.
  split.
  - apply (proj1 (Write_Property_decodes_before_array_check (codec := bacdcode)
                    (write_request PROP_PRESENT_VALUE 0 []) device_1_enabled
                    ltac:(discriminate) ltac:(discriminate)
                    ltac:(discriminate))).
    vm_compute. reflexivity.
  - apply (proj2 (Write_Property_decodes_before_array_check (codec := bacdcode)
                    (write_request PROP_PRESENT_VALUE 0 octets_4000)
                    device_1_enabled
                    ltac:(discriminate) ltac:(discriminate)
                    ltac:(discriminate))).
    vm_compute. discriminate.
Defined.

(** C6 as the claim has it fails: a Present Value write with array index 0
    and no octets to decode ends in (property, value-out-of-range), not in
    (property, property-is-not-an-array). *)
Lemma Write_Property_undecodable_with_index :
  WP.object_property (write_request PROP_PRESENT_VALUE 0 [])
  ≠ PROP_PRIORITY_ARRAY
  ∧ WP.object_property (write_request PROP_PRESENT_VALUE 0 [])
    ≠ PROP_EVENT_TIME_STAMPS
  ∧ WP.array_index (write_request PROP_PRESENT_VALUE 0 []) ≠ BACNET_ARRAY_ALL
  ∧ (decode_application_data [] 0).1 < 0
  ∧ WP.error_code
      (Color_Temperature_Write_Property (codec := bacdcode)
         (write_request PROP_PRESENT_VALUE 0 []) device_1_enabled).1.2
    = ERROR_CODE_VALUE_OUT_OF_RANGE
  ∧ WP.error_code
      (Color_Temperature_Write_Property (codec := bacdcode)
         (write_request PROP_PRESENT_VALUE 0 []) device_1_enabled).1.2
    ≠ ERROR_CODE_PROPERTY_IS_NOT_AN_ARRAY.
Proof.
  repeat split; try discriminate; vm_compute; congruence.
Qed.



(** C4 as the claim has it fails: a read of the object identifier with
    array index 3 and a buffer of no octets returns 0, not
    [BACNET_STATUS_ERROR], and the error pair of the request is as it
    was. *)
Lemma Read_Property_index_without_room :
  RP.object_property (read_request PROP_OBJECT_IDENTIFIER 3 0)
  ∈ Color_Temperature_Properties_Required
    ++ Color_Temperature_Properties_Optional
  ∧ RP.object_property (read_request PROP_OBJECT_IDENTIFIER 3 0)
    ≠ PROP_PRIORITY_ARRAY
  ∧ RP.object_property (read_request PROP_OBJECT_IDENTIFIER 3 0)
    ≠ PROP_EVENT_TIME_STAMPS
  ∧ RP.array_index (read_request PROP_OBJECT_IDENTIFIER 3 0)
    ≠ BACNET_ARRAY_ALL
  ∧ Color_Temperature_Read_Property (codec := bacdcode) device_1 stale_text
      (Some (read_request PROP_OBJECT_IDENTIFIER 3 0))
    = (0, Some (read_request PROP_OBJECT_IDENTIFIER 3 0))
  ∧ (Color_Temperature_Read_Property (codec := bacdcode) device_1 stale_text
       (Some (read_request PROP_OBJECT_IDENTIFIER 3 0))).1
    ≠ BACNET_STATUS_ERROR
  ∧ RP.error_code
      <$> (Color_Temperature_Read_Property (codec := bacdcode) device_1
             stale_text (Some (read_request PROP_OBJECT_IDENTIFIER 3 0))).2
    ≠ Some ERROR_CODE_PROPERTY_IS_NOT_AN_ARRAY.
Proof.
  split.
  { unfold Color_Temperature_Properties_Required. simpl.
    rewrite !elem_of_cons. tauto. }
  repeat split; try discriminate.
Qed.

Lemma Read_Property_index_on_non_array_sample :
  ∃ rp' : BACNET_READ_PROPERTY_DATA,
    Color_Temperature_Read_Property (codec := bacdcode) device_1 stale_text
      (Some (read_request PROP_PRESENT_VALUE 0 50))
    = (BACNET_STATUS_ERROR, Some rp')
    ∧ RP.error_class rp' = ERROR_CLASS_PROPERTY
    ∧ RP.error_code rp' = ERROR_CODE_PROPERTY_IS_NOT_AN_ARRAY.
Proof.
  apply (Read_Property_index_on_non_array (codec := bacdcode) device_1
           stale_text (read_request PROP_PRESENT_VALUE 0 50) (replicate 50 0)).
  - unfold Color_Temperature_Properties_Required. simpl.
    rewrite !elem_of_cons. tauto.
  - reflexivity.
  - discriminate.
  - discriminate.
Defined.

Lemma Read_Property_without_buffer_sample :
  Color_Temperature_Read_Property (codec := bacdcode) device_1 stale_text None
  = (0, None)
  ∧ Color_Temperature_Read_Property (codec := bacdcode) device_1 stale_text
      (Some (read_request PROP_OBJECT_IDENTIFIER 3 0))
    = (0, Some (read_request PROP_OBJECT_IDENTIFIER 3 0)).
Proof.
  split.
  - apply (Read_Property_without_buffer (codec := bacdcode) device_1
             stale_text None).
    left. reflexivity.
  - apply (Read_Property_without_buffer (codec := bacdcode) device_1
             stale_text (Some (read_request PROP_OBJECT_IDENTIFIER 3 0))).
    right. eexists. split; [reflexivity |]. right. reflexivity.
Defined.

Lemma Revision_counts_sample :
  Database_Revision device_1 = to_uint32 (Database_Revision device_started + 1)
  ∧ (∃ s' : device,
       Color_Temperature_Delete 2 device_123 = (true, s')
       ∧ Keylist_Data (Object_List s') 2 = None
       ∧ Database_Revision s' = to_uint32 (Database_Revision device_123 + 1))
  ∧ Database_Revision
      (Color_Temperature_Write_Property (codec := bacdcode)
         (write_request PROP_PRESENT_VALUE BACNET_ARRAY_ALL octets_4000)
         device_1_enabled).2
    = Database_Revision device_1_enabled.
Proof.
  destruct (Revision_counts_creates_and_deletes (codec := bacdcode))
    as (Hcreate & Hdelete & Hwrite).
  split; [| split].
  - apply (Hcreate memory_available 1 1 device_started device_1).
    + reflexivity.
    + reflexivity.
    + vm_compute. eauto.
  - apply (Hdelete 2 device_123). vm_compute. eauto.
  - apply Hwrite.
Defined.

(** C7 as the claim has it fails: an enabled Present Value write takes the
    present value of instance 1 from 0 to 4000 and returns true, and the
    database revision is the one from before the write. *)
Lemma Present_Value_write_keeps_revision :
  Color_Temperature_Present_Value device_1_enabled 1 = 0
  ∧ (Color_Temperature_Write_Property (codec := bacdcode)
       (write_request PROP_PRESENT_VALUE BACNET_ARRAY_ALL octets_4000)
       device_1_enabled).1.1 = true
  ∧ Color_Temperature_Present_Value
      (Color_Temperature_Write_Property (codec := bacdcode)
         (write_request PROP_PRESENT_VALUE BACNET_ARRAY_ALL octets_4000)
         device_1_enabled).2 1 = 4000
  ∧ Database_Revision
      (Color_Temperature_Write_Property (codec := bacdcode)
         (write_request PROP_PRESENT_VALUE BACNET_ARRAY_ALL octets_4000)
         device_1_enabled).2
    = Database_Revision device_1_enabled
  ∧ Database_Revision
      (Color_Temperature_Write_Property (codec := bacdcode)
         (write_request PROP_PRESENT_VALUE BACNET_ARRAY_ALL octets_4000)
         device_1_enabled).2
    ≠ to_uint32 (Database_Revision device_1_enabled + 1).
Proof.
  repeat split; vm_compute; congruence.
Qed.

(** ** The name write *)

(** The keys of the iteration are the keys of the store. *)
Lemma Keylist_Keys_elem (m : gmap Z object_data) (key : Z) :
  key ∈ Keylist_Keys (Some m) ↔ is_Some (m !! key).
Proof.
  unfold Keylist_Keys. rewrite merge_sort_Permutation, list_elem_of_fmap.
  split.
  - intros ([k p] & -> & Hin%elem_of_map_to_list). eauto.
  - intros [p Hp]. exists (key, p). split; [done |].
    by apply elem_of_map_to_list.
Qed.

(** The object's entries in the device scan: every live instance under
    the type Color Temperature and the name the name reader gives. *)
Lemma Color_Temperature_Objects_elem (s : device) (t : BACNET_OBJECT_TYPE)
    (i : Z) (name : string) :
  (t, i, name) ∈ Color_Temperature_Objects s
  ↔ t = OBJECT_COLOR_TEMPERATURE
    ∧ Color_Temperature_Object_Name s i = Some name.
Proof.
  unfold Color_Temperature_Objects. rewrite list_elem_of_omap. split.
  - intros (key & _ & Hname).
    destruct (Color_Temperature_Object_Name s key) eqn:Hkey; simplify_eq/=.
    done.
  - intros [-> Hname]. exists i. rewrite Hname. split; [| done].
    unfold Color_Temperature_Object_Name, Keylist_Data in Hname.
    destruct (Object_List s) as [m |]; [| done].
    apply Keylist_Keys_elem. destruct (m !! i); [eauto | done].
Qed.

(** What the scan reports is an object of the device that holds the name. *)
Lemma Device_Valid_Object_Name_Some (s : device) (name : string)
    (t : BACNET_OBJECT_TYPE) (i : Z) :
  Device_Valid_Object_Name s name = Some (t, i) →
  (t, i, name) ∈ Device_Objects s ++ Color_Temperature_Objects s.
Proof.
  unfold Device_Valid_Object_Name.
  destruct (find _ _) as [[[t' i'] name'] |] eqn:Hfind; [| done].
  intros [= -> ->]. apply find_some in Hfind as [Hin Heq].
  apply String.eqb_eq in Heq. simpl in Heq. subst name'.
  by apply list_elem_of_In.
Qed.

(** The scan finds nothing exactly when no object holds the name. *)
Lemma Device_Valid_Object_Name_None (s : device) (name : string) :
  Device_Valid_Object_Name s name = None
  ↔ ∀ t i, (t, i, name) ∉ Device_Objects s ++ Color_Temperature_Objects s.
Proof.
  unfold Device_Valid_Object_Name. split.
  - destruct (find _ _) as [[[t' i'] name'] |] eqn:Hfind; [done |].
    intros _ t i Hin%list_elem_of_In.
    apply (find_none _ _ Hfind) in Hin. simpl in Hin.
    by rewrite String.eqb_refl in Hin.
  - intros Hfree.
    destruct (find _ _) as [[[t' i'] name'] |] eqn:Hfind; [| done].
    apply find_some in Hfind as [Hin Heq]. apply String.eqb_eq in Heq.
    simpl in Heq. subst name'. apply list_elem_of_In in Hin.
    by apply Hfree in Hin.
Qed.

(** X23.  A name that no object of the device holds is accepted by the
    name write: it returns true, the instance reads the new name, and the
    revision counter takes one step. *)
Lemma Name_Set_fresh_name (object_instance : Z) (name : string) (s : device)
    (pObject : object_data) :
  Keylist_Data (Object_List s) object_instance = Some pObject →
  (∀ t i, (t, i, name) ∉ Device_Objects s ++ Color_Temperature_Objects s) →
  ∃ s' : device,
    Color_Temperature_Name_Set object_instance (Some name) s = (true, s')
    ∧ Color_Temperature_Object_Name s' object_instance = Some name
    ∧ Database_Revision s' = to_uint32 (Database_Revision s + 1).
Proof.
  intros Hlive Hfree%Device_Valid_Object_Name_None.
  unfold Color_Temperature_Name_Set. rewrite Hlive, Hfree.
  eexists. split; [reflexivity |]. split; [| reflexivity].
  unfold Color_Temperature_Object_Name. simpl.
  destruct (Object_List s) as [m |]; [| done]. simpl.
  by rewrite lookup_insert_eq.
Qed.

(** Writing to a live instance the name it holds is turned down, unless a
    Color object of the same instance number holds that name too. *)
Lemma Name_Set_own_name (object_instance : Z) (name : string) (s : device) :
  Color_Temperature_Object_Name s object_instance = Some name →
  (OBJECT_COLOR, object_instance, name) ∉ Device_Objects s →
  Color_Temperature_Name_Set object_instance (Some name) s = (false, s).
Proof.
  intros Hname Hcolor. unfold Color_Temperature_Name_Set.
  destruct (Keylist_Data (Object_List s) object_instance) as [pObject |]
    eqn:Hlive; [| done].
  destruct (Device_Valid_Object_Name s name) as [[t i] |] eqn:Hfound.
  - apply Device_Valid_Object_Name_Some in Hfound.
    destruct (bool_decide (t = OBJECT_COLOR)) eqn:Ht; [| done].
    destruct (bool_decide (i = object_instance)) eqn:Hi; [| done].
    apply bool_decide_eq_true_1 in Ht, Hi. subst t i.
    apply elem_of_app in Hfound as [Hin | Hin]; [done |].
    apply Color_Temperature_Objects_elem in Hin as [? _]. done.
  - exfalso.
    apply (proj1 (Device_Valid_Object_Name_None s name) Hfound
             OBJECT_COLOR_TEMPERATURE object_instance).
    apply elem_of_app. right. by apply Color_Temperature_Objects_elem.
Qed.

(** A name the scan finds on the Color object of the same instance number
    is accepted, and nothing is stored. *)
Lemma Name_Set_name_of_color_object (object_instance : Z) (name : string)
    (s : device) (pObject : object_data) :
  Keylist_Data (Object_List s) object_instance = Some pObject →
  Device_Valid_Object_Name s name = Some (OBJECT_COLOR, object_instance) →
  Color_Temperature_Name_Set object_instance (Some name) s = (true, s).
Proof.
  intros Hlive Hfound. unfold Color_Temperature_Name_Set.
  rewrite Hlive, Hfound. by rewrite !bool_decide_eq_true_2.
Qed.

(** C1, on the code.  The name write compares the type the device scan
    found with [OBJECT_COLOR], not with the type of this object.  Writing
    to instance 1 the name it holds itself is turned down, and writing to
    it the name that the Color object of instance 1 holds is accepted;
    the device is left as it was both times. *)
Theorem Name_Set_compares_with_OBJECT_COLOR :
  Color_Temperature_Object_Name device_named 1 = Some "Lamp"%string
  ∧ Device_Valid_Object_Name device_named "Lamp"
    = Some (OBJECT_COLOR_TEMPERATURE, 1)
  ∧ Color_Temperature_Name_Set 1 (Some "Lamp"%string) device_named
    = (false, device_named)
  ∧ Device_Valid_Object_Name device_with_color "Spot" = Some (OBJECT_COLOR, 1)
  ∧ Color_Temperature_Name_Set 1 (Some "Spot"%string) device_with_color
    = (true, device_with_color).
Proof.
  repeat split; vm_compute; reflexivity.
Qed.

(** ** More on create, delete and cleanup *)

Lemma with_Object_List_same (s : device) :
  with_Object_List (Object_List s) s = s.
Proof. by destruct s. Qed.

(** A create that put a record under [r] where there was none: the store
    it leaves and the state around it. *)
Lemma Create_added_record (mem : heap) (object_instance r : Z)
    (s s' : device) :
  Color_Temperature_Create mem object_instance s = (r, s') →
  Keylist_Data (Object_List s) r = None →
  is_Some (Keylist_Data (Object_List s') r) →
  ∃ m : gmap Z object_data,
    Object_List s = Some m
    ∧ s' = Device_Inc_Database_Revision
             (with_Object_List (Some (<[r := created_object]> m)) s).
Proof.
  intros Hcreate Hbefore [p Hafter].
  assert (Hsame : s' = s → False) by (intros ->; congruence).
  destruct (Z.lt_trichotomy object_instance BACNET_MAX_INSTANCE)
    as [Hlt | [-> | Hgt]].
  - destruct (Keylist_Data (Object_List s) object_instance) as [q |] eqn:Hq.
    + unfold Color_Temperature_Create in Hcreate.
      destruct (Z.ltb_spec BACNET_MAX_INSTANCE object_instance); [lia |].
      destruct (Z.eqb_spec object_instance BACNET_MAX_INSTANCE); [lia |].
      rewrite Hq in Hcreate. simplify_eq.
    + rewrite Create_absent in Hcreate by done.
      destruct (Object_List s) as [m |], (calloc_succeeds mem),
        (keylist_has_room mem); simpl in Hcreate; simplify_eq; try done.
      eauto.
  - rewrite Create_wildcard in Hcreate. cbn zeta in Hcreate.
    destruct (Object_List s) as [m |] eqn:Hlist, (calloc_succeeds mem),
      (keylist_has_room mem); simpl in Hcreate; simplify_eq; try done.
    eauto.
  - unfold Color_Temperature_Create in Hcreate.
    destruct (Z.ltb_spec BACNET_MAX_INSTANCE object_instance); [| lia].
    simplify_eq.
Qed.

(** X1.  Delete removes the instance it is given and nothing else: it
    returns whether the instance was live, the instance is not live
    afterwards, every other instance keeps its record, and a delete of a
    missing instance leaves the device, revision included, as it was. *)
Theorem Delete_removes_only_the_instance (object_instance : Z) (s : device) :
  (Color_Temperature_Delete object_instance s).1
  = Color_Temperature_Valid_Instance s object_instance
  ∧ Color_Temperature_Valid_Instance
      (Color_Temperature_Delete object_instance s).2 object_instance = false
  ∧ (∀ other : Z, other ≠ object_instance →
       Keylist_Data (Object_List (Color_Temperature_Delete object_instance s).2)
         other
       = Keylist_Data (Object_List s) other)
  ∧ ((Color_Temperature_Delete object_instance s).1 = false →
     (Color_Temperature_Delete object_instance s).2 = s).
Proof.
  unfold Color_Temperature_Delete, Color_Temperature_Valid_Instance,
    Keylist_Data_Delete, Keylist_Data.
  destruct (Object_List s) as [m |] eqn:Hlist; simpl.
  - destruct (m !! object_instance) as [p |] eqn:Hlive; simpl.
    + rewrite lookup_delete_eq. repeat split; [| done].
      intros other Hne. by rewrite lookup_delete_ne.
    + rewrite Hlist, Hlive. done.
  - rewrite Hlist. done.
Qed.

(** X2.  Create and delete undo each other on the store.  When a create
    has put a record under the number it returns, deleting that number
    succeeds and gives back the device from before the create, two revision
    steps later. *)
Theorem Create_then_Delete_restores (mem : heap) (object_instance r : Z)
    (s s' : device) :
  Color_Temperature_Create mem object_instance s = (r, s') →
  Keylist_Data (Object_List s) r = None →
  is_Some (Keylist_Data (Object_List s') r) →
  Color_Temperature_Delete r s' =
    (true,
     Device_Inc_Database_Revision (Device_Inc_Database_Revision s)).
Proof.
  intros Hcreate Hbefore Hafter.
  destruct (Create_added_record mem object_instance r s s' Hcreate Hbefore
              Hafter) as (m & Hlist & ->).
  rewrite (Delete_live r _ (<[r := created_object]> m) created_object);
    [| done | by rewrite lookup_insert_eq].
  f_equal. rewrite delete_insert_eq.
  rewrite Hlist in Hbefore. simpl in Hbefore.
  rewrite delete_id by done.
  destruct s. simpl in *. by subst.
Qed.

(** X3.  Create never touches a record that is there: whatever the
    requested instance and whatever memory there is, every live instance
    has the same record after the call. *)
Theorem Create_keeps_existing_records (mem : heap)
    (object_instance other : Z) (s : device) (pObject : object_data) :
  Keylist_Data (Object_List s) other = Some pObject →
  Keylist_Data
    (Object_List (Color_Temperature_Create mem object_instance s).2) other
  = Some pObject.
Proof.
  intros Hlive.
  destruct (Color_Temperature_Create mem object_instance s) as [r s'] eqn:Hc.
  simpl.
  destruct (Keylist_Data (Object_List s) r) as [q |] eqn:Hr.
  - assert (s' = s) as ->; [| done].
    unfold Color_Temperature_Create in Hc.
    repeat case_match; simplify_eq; try done.
    all: unfold Keylist_Data_Add in *; repeat case_match; simplify_eq.
  - destruct (Keylist_Data (Object_List s') r) as [q |] eqn:Hr'.
    + destruct (Create_added_record mem object_instance r s s' Hc Hr
                  ltac:(eauto)) as (m & Hlist & ->).
      simpl. rewrite Hlist in Hlive, Hr. simpl in *.
      rewrite lookup_insert_ne; [done | congruence].
    + assert (s' = s) as ->; [| done].
      unfold Color_Temperature_Create in Hc.
      repeat case_match; simplify_eq; try done.
      all: unfold Keylist_Data_Add in *; repeat case_match; simplify_eq;
        simpl in Hr'; by rewrite ?lookup_insert_eq in Hr'.
Qed.

Lemma Keylist_Count_size (m : gmap Z object_data) :
  Keylist_Count (Some m) = Z.of_nat (size m).
Proof.
  unfold Keylist_Count, Keylist_Keys.
  by rewrite merge_sort_Permutation, length_fmap, length_map_to_list.
Qed.

Lemma Inc_Database_Revision_iter (n : nat) (s : device) :
  Object_List (Nat.iter n Device_Inc_Database_Revision s) = Object_List s
  ∧ (0 ≤ Database_Revision s < 2 ^ 32 →
     Database_Revision (Nat.iter n Device_Inc_Database_Revision s)
     = to_uint32 (Database_Revision s + Z.of_nat n)).
Proof.
  induction n as [| n [IHlist IHrev]]; simpl.
  - split; [done |]. intros Hrange. unfold to_uint32.
    rewrite Z.add_0_r. symmetry. by apply Z.mod_small.
  - split; [done |]. intros Hrange. rewrite IHrev by done.
    unfold to_uint32. rewrite Zplus_mod_idemp_l. f_equal. lia.
Qed.

(** X4.  Cleanup releases every record: afterwards no instance is live
    and the count is 0, and the revision counter, a 32-bit number, has
    moved by the number of records that were in the store. *)
Theorem Cleanup_releases_every_record (s : device) :
  0 ≤ Database_Revision s < 2 ^ 32 →
  (∀ object_instance : Z,
     Color_Temperature_Valid_Instance (Color_Temperature_Cleanup s)
       object_instance = false)
  ∧ Color_Temperature_Count (Color_Temperature_Cleanup s) = 0
  ∧ Database_Revision (Color_Temperature_Cleanup s)
    = to_uint32 (Database_Revision s + Color_Temperature_Count s).
Proof.
  intros Hrange.
  unfold Color_Temperature_Cleanup, Color_Temperature_Valid_Instance,
    Color_Temperature_Count.
  destruct (Object_List s) as [m |] eqn:Hlist.
  - destruct (Inc_Database_Revision_iter (size m) (with_Object_List None s))
      as [Hnone Hrev].
    rewrite Hnone, Hrev, Keylist_Count_size by done. done.
  - rewrite Hlist. repeat split. unfold to_uint32. simpl.
    rewrite Z.add_0_r. symmetry. by apply Z.mod_small.
Qed.

(** ** More on the write handler *)

Section More_Handler_Properties.
Context {codec : Tag_Codec}.

(** A whole-property Present Value write whose data decodes to an unsigned
    value comes down to the present-value writer. *)
Lemma Write_Property_reaches_Present_Value_Write
    (wp_data : BACNET_WRITE_PROPERTY_DATA) (s : device) (len : Z)
    (value : BACNET_APPLICATION_DATA_VALUE) :
  WP.object_property wp_data = PROP_PRESENT_VALUE →
  WP.array_index wp_data = BACNET_ARRAY_ALL →
  bacapp_decode_application_data (WP.application_data wp_data)
    (WP.application_data_len wp_data) = (len, value) →
  0 ≤ len →
  tag value = BACNET_APPLICATION_TAG_UNSIGNED_INT →
  Color_Temperature_Write_Property wp_data s =
    let '(status, error, s') :=
      Color_Temperature_Present_Value_Write (WP.object_instance wp_data)
        (to_uint32 (Unsigned_Int value)) (WP.priority wp_data) s in
    (status,
     match error with
     | Some (class, code) => WP.with_error class code wp_data
     | None => wp_data
     end,
     s').
Proof.
  intros Hprop Hindex Hdecode Hlen Htag.
  unfold Color_Temperature_Write_Property. rewrite Hdecode, Hprop, Hindex.
  destruct (Z.ltb_spec len 0); [lia |].
  rewrite (bool_decide_eq_false_2 (BACNET_ARRAY_ALL ≠ BACNET_ARRAY_ALL))
    by (intros Hne; by apply Hne).
  rewrite !andb_false_r.
  unfold write_property_type_valid. by rewrite bool_decide_eq_true_2.
Qed.

(** X5.  The write handler is all or nothing.  When it returns false the
    device is as it was and an error pair is loaded, of class property or
    (object, unknown-object); when it returns true no error is loaded, and
    the request was a whole-property write of Present Value to an instance
    with writes enabled. *)
Theorem Write_Property_all_or_nothing (wp_data : BACNET_WRITE_PROPERTY_DATA)
    (s : device) :
  ((Color_Temperature_Write_Property wp_data s).1.1 = false →
   (Color_Temperature_Write_Property wp_data s).2 = s
   ∧ ∃ (class : BACNET_ERROR_CLASS) (code : BACNET_ERROR_CODE),
       (Color_Temperature_Write_Property wp_data s).1.2
       = WP.with_error class code wp_data
       ∧ code ≠ ERROR_CODE_OTHER
       ∧ (class = ERROR_CLASS_PROPERTY
          ∨ (class = ERROR_CLASS_OBJECT ∧ code = ERROR_CODE_UNKNOWN_OBJECT)))
  ∧ ((Color_Temperature_Write_Property wp_data s).1.1 = true →
     (Color_Temperature_Write_Property wp_data s).1.2 = wp_data
     ∧ WP.object_property wp_data = PROP_PRESENT_VALUE
     ∧ WP.array_index wp_data = BACNET_ARRAY_ALL
     ∧ Color_Temperature_Write_Enabled s (WP.object_instance wp_data) = true).
Proof.
  unfold Color_Temperature_Write_Property, write_property_type_valid,
    Color_Temperature_Present_Value_Write, Color_Temperature_Write_Enabled.
  destruct (bacapp_decode_application_data _ _) as [len value].
  destruct (len <? 0).
  { split; [| done]. intros _. split; [done |]. eexists _, _.
    split; [reflexivity |]. split; [discriminate | by left]. }
  destruct (bool_decide (WP.object_property wp_data ≠ PROP_PRIORITY_ARRAY)
            && bool_decide (WP.object_property wp_data ≠ PROP_EVENT_TIME_STAMPS)
            && bool_decide (WP.array_index wp_data ≠ BACNET_ARRAY_ALL))
    eqn:Hindex.
  { split; [| done]. intros _. split; [done |]. eexists _, _.
    split; [reflexivity |]. split; [discriminate | by left]. }
  destruct (WP.object_property wp_data) eqn:Hprop;
    try (split; [| done]; intros _; split; [done |]; eexists _, _;
         split; [reflexivity |]; split; [discriminate | by left]).
  rewrite !bool_decide_eq_true_2 in Hindex by done. simpl in Hindex.
  apply bool_decide_eq_false_1 in Hindex.
  assert (Hall : WP.array_index wp_data = BACNET_ARRAY_ALL)
    by (destruct (decide (WP.array_index wp_data = BACNET_ARRAY_ALL)); done).
  destruct (bool_decide (tag value = BACNET_APPLICATION_TAG_UNSIGNED_INT)).
  - destruct (Keylist_Data (Object_List s) (WP.object_instance wp_data))
      as [pObject |]; [destruct (Write_Enabled pObject) |]; simpl.
    + split; [done |]. intros _. done.
    + split; [| done]. intros _. split; [done |]. eexists _, _.
      split; [reflexivity |]. split; [discriminate | by left].
    + split; [| done]. intros _. split; [done |]. eexists _, _.
      split; [reflexivity |]. split; [discriminate | by right].
  - split; [| done]. intros _. split; [done |]. eexists _, _.
    split; [reflexivity |]. split; [discriminate | by left].
Qed.


Lemma set_Present_Value_same (p : object_data) :
  set_Present_Value (Present_Value p) p = p.
Proof. by destruct p. Qed.

(** The device a write leaves: the one it found, or that one with the
    present value of the addressed record replaced. *)
Lemma Write_Property_device_cases (wp_data : BACNET_WRITE_PROPERTY_DATA)
    (s : device) :
  (Color_Temperature_Write_Property wp_data s).2 = s
  ∨ ∃ (m : gmap Z object_data) (pObject : object_data) (value : Z)
      (s1 : device),
      Object_List s = Some m
      ∧ m !! WP.object_instance wp_data = Some pObject
      ∧ (Color_Temperature_Write_Property wp_data s).2 = s1
      ∧ Object_List s1
        = Some (<[WP.object_instance wp_data :=
                    set_Present_Value value pObject]> m)
      ∧ Database_Revision s1 = Database_Revision s
      ∧ Device_Objects s1 = Device_Objects s
      ∧ Color_Temperature_Write_Present_Value_Callback s1
        = Color_Temperature_Write_Present_Value_Callback s.
Proof.
  unfold Color_Temperature_Write_Property, write_property_type_valid,
    Color_Temperature_Present_Value_Write.
  repeat case_match; simplify_eq/=; try (by left).
  all: right; unfold Keylist_Data in *;
    destruct (Object_List s) as [m |] eqn:Hlist; [| done];
    eexists _, _, _, _; split; [reflexivity |]; split; [eassumption |];
    split; [reflexivity |]; simpl; by rewrite ?Hlist.
Qed.

(** X6.  The write handler changes one field of one record at most.  The
    record of every other instance, the set of live instances, the revision
    counter, the callback and the other objects of the device are as they
    were, and the record of the addressed instance differs from the old one
    in its present value only. *)
Theorem Write_Property_touches_Present_Value_only
    (wp_data : BACNET_WRITE_PROPERTY_DATA) (s : device) :
  (∀ other : Z, other ≠ WP.object_instance wp_data →
     Keylist_Data
       (Object_List (Color_Temperature_Write_Property wp_data s).2) other
     = Keylist_Data (Object_List s) other)
  ∧ (∀ object_instance : Z,
       Color_Temperature_Valid_Instance
         (Color_Temperature_Write_Property wp_data s).2 object_instance
       = Color_Temperature_Valid_Instance s object_instance)
  ∧ (∀ pObject : object_data,
       Keylist_Data (Object_List s) (WP.object_instance wp_data)
       = Some pObject →
       ∃ value : Z,
         Keylist_Data
           (Object_List (Color_Temperature_Write_Property wp_data s).2)
           (WP.object_instance wp_data)
         = Some (set_Present_Value value pObject))
  ∧ Database_Revision (Color_Temperature_Write_Property wp_data s).2
    = Database_Revision s
  ∧ Device_Objects (Color_Temperature_Write_Property wp_data s).2
    = Device_Objects s
  ∧ Color_Temperature_Write_Present_Value_Callback
      (Color_Temperature_Write_Property wp_data s).2
    = Color_Temperature_Write_Present_Value_Callback s.
Proof.
  destruct (Write_Property_device_cases wp_data s)
    as [-> | (m & p & v & s1 & Hlist & Hlive & -> & Hl1 & Hrev
         & Hobjects & Hcallback)].
  - repeat split; try done. intros p Hp. exists (Present_Value p).
    by rewrite set_Present_Value_same.
  - unfold Color_Temperature_Valid_Instance. rewrite Hl1, Hlist. simpl.
    repeat split; try done.
    + intros other Hne. by rewrite lookup_insert_ne.
    + intros i. destruct (decide (i = WP.object_instance wp_data)) as [-> | Hne].
      * by rewrite lookup_insert_eq, Hlive.
      * by rewrite lookup_insert_ne.
    + intros q Hq. exists v. rewrite lookup_insert_eq. congruence.
Qed.

(** X7.  A whole-property Present Value write with an unsigned value to an
    instance that is not in the store fails with (object, unknown-object)
    and changes nothing. *)
Theorem Write_Property_missing_instance
    (wp_data : BACNET_WRITE_PROPERTY_DATA) (s : device) (len : Z)
    (value : BACNET_APPLICATION_DATA_VALUE) :
  Keylist_Data (Object_List s) (WP.object_instance wp_data) = None →
  WP.object_property wp_data = PROP_PRESENT_VALUE →
  WP.array_index wp_data = BACNET_ARRAY_ALL →
  bacapp_decode_application_data (WP.application_data wp_data)
    (WP.application_data_len wp_data) = (len, value) →
  0 ≤ len →
  tag value = BACNET_APPLICATION_TAG_UNSIGNED_INT →
  Color_Temperature_Write_Property wp_data s =
    (false,
     WP.with_error ERROR_CLASS_OBJECT ERROR_CODE_UNKNOWN_OBJECT wp_data,
     s).
Proof.
  intros Hmissing Hprop Hindex Hdecode Hlen Htag.
  rewrite (Write_Property_reaches_Present_Value_Write wp_data s len value)
    by done.
  unfold Color_Temperature_Present_Value_Write. by rewrite Hmissing.
Qed.

(** X8.  Which property a write names decides the error, once the data
    decodes and the array index passes.  Object identifier, object type,
    object name and description are refused with (property,
    write-access-denied); every other property but Present Value, the
    readable ones of the object's lists among them, is refused with
    (property, unknown-property).  The device is left as it was, whether
    the instance is live or not and whatever its write-enabled flag. *)
Theorem Write_Property_refused_properties
    (wp_data : BACNET_WRITE_PROPERTY_DATA) (s : device) :
  0 ≤ (bacapp_decode_application_data (WP.application_data wp_data)
         (WP.application_data_len wp_data)).1 →
  WP.array_index wp_data = BACNET_ARRAY_ALL →
  WP.object_property wp_data ≠ PROP_PRESENT_VALUE →
  Color_Temperature_Write_Property wp_data s =
    (false,
     WP.with_error ERROR_CLASS_PROPERTY
       (if bool_decide
             (WP.object_property wp_data ∈
                [PROP_OBJECT_IDENTIFIER; PROP_OBJECT_TYPE; PROP_OBJECT_NAME;
                 PROP_DESCRIPTION])
        then ERROR_CODE_WRITE_ACCESS_DENIED
        else ERROR_CODE_UNKNOWN_PROPERTY)
       wp_data,
     s).
Proof.
  intros Hlen Hindex Hprop. unfold Color_Temperature_Write_Property.
  destruct (bacapp_decode_application_data _ _) as [len value]. simpl in Hlen.
  destruct (Z.ltb_spec len 0); [lia |]. rewrite Hindex.
  rewrite (bool_decide_eq_false_2 (BACNET_ARRAY_ALL ≠ BACNET_ARRAY_ALL))
    by (intros Hne; by apply Hne).
  rewrite !andb_false_r.
  destruct (WP.object_property wp_data); try done.
Qed.

(** X9.  A Present Value write that goes through tells the callback once:
    with a callback set, the trace gains one indication of the instance,
    the value from before and the value written; with none set, the trace
    is as it was. *)
Theorem Write_Property_indicates_once
    (wp_data : BACNET_WRITE_PROPERTY_DATA) (s : device)
    (pObject : object_data) (len : Z) (value : BACNET_APPLICATION_DATA_VALUE) :
  Keylist_Data (Object_List s) (WP.object_instance wp_data) = Some pObject →
  Write_Enabled pObject = true →
  WP.object_property wp_data = PROP_PRESENT_VALUE →
  WP.array_index wp_data = BACNET_ARRAY_ALL →
  bacapp_decode_application_data (WP.application_data wp_data)
    (WP.application_data_len wp_data) = (len, value) →
  0 ≤ len →
  tag value = BACNET_APPLICATION_TAG_UNSIGNED_INT →
  Present_Value_Indications (Color_Temperature_Write_Property wp_data s).2
  = if Color_Temperature_Write_Present_Value_Callback s
    then (WP.object_instance wp_data, Present_Value pObject,
          to_uint32 (Unsigned_Int value))
         :: Present_Value_Indications s
    else Present_Value_Indications s.
Proof.
  intros Hlive Hflag Hprop Hindex Hdecode Hlen Htag.
  rewrite (Write_Property_reaches_Present_Value_Write wp_data s len value)
    by done.
  unfold Color_Temperature_Present_Value_Write. rewrite Hlive, Hflag. simpl.
  by destruct (Color_Temperature_Write_Present_Value_Callback s).
Qed.

(** X10.  The priority of a write plays no part: the same request at
    another priority has the same status, loads the same error pair and
    leaves the same device. *)
Theorem Write_Property_ignores_priority
    (wp_data : BACNET_WRITE_PROPERTY_DATA) (priority : Z) (s : device) :
  (Color_Temperature_Write_Property (with_priority priority wp_data) s).1.1
  = (Color_Temperature_Write_Property wp_data s).1.1
  ∧ WP.error_class
      (Color_Temperature_Write_Property (with_priority priority wp_data) s).1.2
    = WP.error_class (Color_Temperature_Write_Property wp_data s).1.2
  ∧ WP.error_code
      (Color_Temperature_Write_Property (with_priority priority wp_data) s).1.2
    = WP.error_code (Color_Temperature_Write_Property wp_data s).1.2
  ∧ (Color_Temperature_Write_Property (with_priority priority wp_data) s).2
    = (Color_Temperature_Write_Property wp_data s).2.
Proof.
  unfold Color_Temperature_Write_Property, write_property_type_valid,
    Color_Temperature_Present_Value_Write. simpl.
  destruct (bacapp_decode_application_data _ _) as [len value].
  destruct (len <? 0); [done |].
  destruct (_ && _); [done |].
  destruct (WP.object_property wp_data); try done.
  destruct (bool_decide _); [| done].
  destruct (Keylist_Data _ _) as [pObject |]; [| done].
  destruct (Write_Enabled pObject); [| done]. simpl.
  by destruct (Color_Temperature_Write_Present_Value_Callback s).
Qed.


(** X11.  What is written is what is read.  After a Present Value write
    that goes through, a whole-property read of Present Value of that
    instance returns the octets of the written number, as the 32-bit field
    holds it, at the start of the buffer, and their count. *)
Theorem Read_Property_after_Write_Property
    (wp_data : BACNET_WRITE_PROPERTY_DATA) (s : device)
    (pObject : object_data) (len : Z) (value : BACNET_APPLICATION_DATA_VALUE)
    (char_string : string) (rp : BACNET_READ_PROPERTY_DATA) (apdu : list Z) :
  Keylist_Data (Object_List s) (WP.object_instance wp_data) = Some pObject →
  Write_Enabled pObject = true →
  WP.object_property wp_data = PROP_PRESENT_VALUE →
  WP.array_index wp_data = BACNET_ARRAY_ALL →
  bacapp_decode_application_data (WP.application_data wp_data)
    (WP.application_data_len wp_data) = (len, value) →
  0 ≤ len →
  tag value = BACNET_APPLICATION_TAG_UNSIGNED_INT →
  RP.object_instance rp = WP.object_instance wp_data →
  RP.object_property rp = PROP_PRESENT_VALUE →
  RP.array_index rp = BACNET_ARRAY_ALL →
  RP.application_data rp = Some apdu →
  RP.application_data_len rp ≠ 0 →
  Color_Temperature_Read_Property
    (Color_Temperature_Write_Property wp_data s).2 char_string (Some rp)
  = (Z.of_nat
       (length (encode_application_unsigned (to_uint32 (Unsigned_Int value)))),
     Some (RP.with_application_data
             (encode_application_unsigned (to_uint32 (Unsigned_Int value))
              ++ drop
                   (length (encode_application_unsigned
                              (to_uint32 (Unsigned_Int value))))
                   apdu)
             rp)).
Proof.
  intros Hlive Hflag Hprop Hindex Hdecode Hlen Htag Hinstance Hrprop Hrindex
    Hbuffer Hroom.
  rewrite (Write_Property_reaches_Present_Value_Write wp_data s len value)
    by done.
  unfold Color_Temperature_Present_Value_Write. rewrite Hlive, Hflag.
  cbn zeta. cbn beta iota. simpl snd.
  match goal with
  | |- Color_Temperature_Read_Property ?s1 _ _ = _ => set (s' := s1)
  end.
  assert (Hvalue :
    Color_Temperature_Present_Value s' (WP.object_instance wp_data)
    = to_uint32 (Unsigned_Int value)).
  { unfold s', Color_Temperature_Present_Value, Keylist_Data in *.
    destruct (Object_List s) as [m |] eqn:Hlist; [| done].
    destruct (Color_Temperature_Write_Present_Value_Callback _); simpl;
      by rewrite lookup_insert_eq. }
  clearbody s'.
  unfold Color_Temperature_Read_Property. rewrite Hbuffer.
  destruct (Z.eqb_spec (RP.application_data_len rp) 0); [done |].
  unfold Read_Property_switch. rewrite Hrprop, Hinstance, Hvalue.
  unfold encoded.
  destruct (Z.leb_spec 0 (Z.of_nat (length (encode_application_unsigned
              (to_uint32 (Unsigned_Int value)))))); [| lia].
  rewrite Hrindex.
  rewrite (bool_decide_eq_false_2 (BACNET_ARRAY_ALL ≠ BACNET_ARRAY_ALL))
    by (intros Hne; by apply Hne).
  by rewrite !andb_false_r.
Qed.

(** X12.  The read handler answers for the properties of the object's
    lists and for no other.  In a request with a buffer to answer into (the
    buffer is not NULL and its declared length is not 0), a read of a
    property outside the required and optional lists, the two array
    properties included, returns [BACNET_STATUS_ERROR] with (property,
    unknown-property), whatever the array index: the array-index rule is
    not applied to it. *)
Theorem Read_Property_unknown_property (s : device) (char_string : string)
    (rp : BACNET_READ_PROPERTY_DATA) (apdu : list Z) :
  RP.object_property rp ∉
    Color_Temperature_Properties_Required
    ++ Color_Temperature_Properties_Optional →
  RP.application_data rp = Some apdu →
  RP.application_data_len rp ≠ 0 →
  Color_Temperature_Read_Property s char_string (Some rp)
  = (BACNET_STATUS_ERROR,
     Some (RP.with_error ERROR_CLASS_PROPERTY ERROR_CODE_UNKNOWN_PROPERTY rp)).
Proof.
  intros Hout Hbuffer Hroom.
  unfold Color_Temperature_Read_Property. rewrite Hbuffer.
  destruct (Z.eqb_spec (RP.application_data_len rp) 0); [done |].
  unfold Color_Temperature_Properties_Required,
    Color_Temperature_Properties_Optional in Hout. simpl app in Hout.
  unfold Read_Property_switch.
  destruct (RP.object_property rp);
    try (exfalso; apply Hout; rewrite !elem_of_cons; tauto); reflexivity.
Qed.

(** X13.  The read handler returns [BACNET_STATUS_ERROR] or a length that
    is not negative, whatever the store holds and whatever its local
    character string held on entry.  With the error it has loaded
    (property, unknown-property) or (property, property-is-not-an-array),
    never an error of class object, also for an instance that is not in the
    store.  With a length the error pair of the request is as it was. *)
Theorem Read_Property_outcomes (s : device) (char_string : string)
    (rpdata : option BACNET_READ_PROPERTY_DATA) :
  ((Color_Temperature_Read_Property s char_string rpdata).1
   = BACNET_STATUS_ERROR
   ∧ ∃ rp' : BACNET_READ_PROPERTY_DATA,
       (Color_Temperature_Read_Property s char_string rpdata).2 = Some rp'
       ∧ RP.error_class rp' = ERROR_CLASS_PROPERTY
       ∧ (RP.error_code rp' = ERROR_CODE_UNKNOWN_PROPERTY
          ∨ RP.error_code rp' = ERROR_CODE_PROPERTY_IS_NOT_AN_ARRAY))
  ∨ (0 ≤ (Color_Temperature_Read_Property s char_string rpdata).1
     ∧ RP.error_class
         <$> (Color_Temperature_Read_Property s char_string rpdata).2
       = RP.error_class <$> rpdata
     ∧ RP.error_code
         <$> (Color_Temperature_Read_Property s char_string rpdata).2
       = RP.error_code <$> rpdata).
Proof.
  unfold Color_Temperature_Read_Property.
  destruct rpdata as [rp |]; [| right; done].
  destruct (RP.application_data rp) as [apdu |]; [| right; done].
  destruct (RP.application_data_len rp =? 0); [right; done |].
  assert (Hswitch :
    Read_Property_switch s char_string rp apdu
    = (BACNET_STATUS_ERROR,
       RP.with_error ERROR_CLASS_PROPERTY ERROR_CODE_UNKNOWN_PROPERTY rp)
    ∨ (0 ≤ (Read_Property_switch s char_string rp apdu).1
       ∧ RP.error_class (Read_Property_switch s char_string rp apdu).2
         = RP.error_class rp
       ∧ RP.error_code (Read_Property_switch s char_string rp apdu).2
         = RP.error_code rp)).
  { unfold Read_Property_switch, encoded.
    destruct (RP.object_property rp); try (by left);
      try (right; simpl; split; [lia | done]).
    destruct (Color_Temperature_Command _ _); right; simpl;
      (split; [lia | done]). }
  destruct Hswitch as [-> | (Hlen & Hclass & Hcode)].
  - left. simpl. split; [done |]. eexists. split; [reflexivity |]. eauto.
  - destruct (Read_Property_switch s char_string rp apdu) as [apdu_len rp1].
    simpl in Hlen, Hclass, Hcode.
    destruct (_ && _).
    + left. simpl. split; [done |]. eexists. split; [reflexivity |]. eauto.
    + right. simpl. by rewrite Hclass, Hcode.
Qed.

(** X14.  An instance comes out of create with writes disabled.  Once a
    create has put a record under the number it returns, a Present Value
    write to that number is refused with (property, write-access-denied)
    and changes nothing; after [Color_Temperature_Write_Enable] the same
    write goes through. *)
Theorem Created_instance_refuses_writes (mem : heap) (object_instance : Z)
    (s s' : device) (wp_data : BACNET_WRITE_PROPERTY_DATA) (len : Z)
    (value : BACNET_APPLICATION_DATA_VALUE) :
  Color_Temperature_Create mem object_instance s
  = (WP.object_instance wp_data, s') →
  Keylist_Data (Object_List s) (WP.object_instance wp_data) = None →
  is_Some (Keylist_Data (Object_List s') (WP.object_instance wp_data)) →
  WP.object_property wp_data = PROP_PRESENT_VALUE →
  WP.array_index wp_data = BACNET_ARRAY_ALL →
  bacapp_decode_application_data (WP.application_data wp_data)
    (WP.application_data_len wp_data) = (len, value) →
  0 ≤ len →
  tag value = BACNET_APPLICATION_TAG_UNSIGNED_INT →
  Color_Temperature_Write_Property wp_data s' =
    (false,
     WP.with_error ERROR_CLASS_PROPERTY ERROR_CODE_WRITE_ACCESS_DENIED wp_data,
     s')
  ∧ (Color_Temperature_Write_Property wp_data
       (Color_Temperature_Write_Enable (WP.object_instance wp_data) s')).1.1
    = true.
Proof.
  intros Hcreate Hbefore Hafter Hprop Hindex Hdecode Hlen Htag.
  destruct (Create_added_record mem object_instance _ s s' Hcreate Hbefore
              Hafter) as (m & Hlist & ->).
  rewrite !(Write_Property_reaches_Present_Value_Write wp_data _ len value)
    by done.
  unfold Color_Temperature_Present_Value_Write, Color_Temperature_Write_Enable.
  simpl. rewrite !lookup_insert_eq. simpl. by rewrite lookup_insert_eq.
Qed.

End More_Handler_Properties.

(** ** The writers *)

(** X15.  Enable and disable undo each other: on an instance with writes
    disabled, enabling and then disabling gives back the device as it was,
    and the other way round on an instance with writes enabled.  On a
    missing instance both calls do nothing. *)
Theorem Write_Enable_Disable_round_trip (object_instance : Z) (s : device) :
  (Color_Temperature_Write_Enabled s object_instance = false →
   Color_Temperature_Write_Disable object_instance
     (Color_Temperature_Write_Enable object_instance s) = s)
  ∧ (Color_Temperature_Write_Enabled s object_instance = true →
     Color_Temperature_Write_Enable object_instance
       (Color_Temperature_Write_Disable object_instance s) = s)
  ∧ (Keylist_Data (Object_List s) object_instance = None →
     Color_Temperature_Write_Enable object_instance s = s
     ∧ Color_Temperature_Write_Disable object_instance s = s).
Proof.
  unfold Color_Temperature_Write_Enabled, Color_Temperature_Write_Enable,
    Color_Temperature_Write_Disable, Keylist_Data.
  destruct s as [[m |] cb trace rev objects]; simpl; [| done].
  destruct (m !! object_instance) as [p |] eqn:Hlive; simpl.
  - rewrite !lookup_insert_eq. unfold with_Object_List. simpl.
    rewrite !insert_insert_eq.
    split; [| split; [| done]]; intros Hflag;
      do 2 f_equal; apply insert_id; rewrite Hlive; f_equal;
      destruct p; simpl in *; by subst.
  - rewrite Hlive. done.
Qed.

(** X16.  [Color_Temperature_Present_Value_Set] is not gated: on a live
    instance it stores the value whether writes are enabled or not, the
    reader returns it, and neither the callback trace nor the revision
    counter nor the write-enabled flag moves.  On a missing instance it
    returns false and changes nothing. *)
Theorem Present_Value_Set_is_not_gated (object_instance value : Z)
    (s : device) :
  (is_Some (Keylist_Data (Object_List s) object_instance) →
   (Color_Temperature_Present_Value_Set object_instance value s).1 = true
   ∧ Color_Temperature_Present_Value
       (Color_Temperature_Present_Value_Set object_instance value s).2
       object_instance = value
   ∧ Color_Temperature_Write_Enabled
       (Color_Temperature_Present_Value_Set object_instance value s).2
       object_instance
     = Color_Temperature_Write_Enabled s object_instance
   ∧ Present_Value_Indications
       (Color_Temperature_Present_Value_Set object_instance value s).2
     = Present_Value_Indications s
   ∧ Database_Revision
       (Color_Temperature_Present_Value_Set object_instance value s).2
     = Database_Revision s)
  ∧ (Keylist_Data (Object_List s) object_instance = None →
     Color_Temperature_Present_Value_Set object_instance value s = (false, s)).
Proof.
  unfold Color_Temperature_Present_Value_Set, Color_Temperature_Present_Value,
    Color_Temperature_Write_Enabled, Keylist_Data.
  destruct (Object_List s) as [m |] eqn:Hlist; simpl.
  - destruct (m !! object_instance) as [p |] eqn:Hlive; simpl.
    + rewrite lookup_insert_eq. split; [done |]. intros [=].
    + rewrite ?Hlist, ?Hlive. split; [by intros [? ?] | done].
  - rewrite ?Hlist. split; [by intros [? ?] | done].
Qed.

Section Guarded_Writer_Properties.
Context {limits : Lighting_Limits}.

(** X17.  [Color_Temperature_Default_Fade_Time_Set] reports success for
    every value on a live instance, and stores the value only when it is 0
    or within the fade-time range; any other value leaves the device as it
    was, and the call still returns true. *)
Theorem Default_Fade_Time_Set_reports_success (object_instance value : Z)
    (s : device) (pObject : object_data) :
  Keylist_Data (Object_List s) object_instance = Some pObject →
  (Color_Temperature_Default_Fade_Time_Set object_instance value s).1 = true
  ∧ (value = 0
     ∨ BACNET_COLOR_FADE_TIME_MIN ≤ value ≤ BACNET_COLOR_FADE_TIME_MAX →
     Color_Temperature_Default_Fade_Time
       (Color_Temperature_Default_Fade_Time_Set object_instance value s).2
       object_instance = value)
  ∧ (value ≠ 0 →
     ¬ (BACNET_COLOR_FADE_TIME_MIN ≤ value ≤ BACNET_COLOR_FADE_TIME_MAX) →
     (Color_Temperature_Default_Fade_Time_Set object_instance value s).2 = s).
Proof.
  intros Hlive.
  unfold Color_Temperature_Default_Fade_Time_Set,
    Color_Temperature_Default_Fade_Time. rewrite Hlive.
  destruct (Z.eqb_spec value 0) as [Hzero | Hzero];
    destruct (Z.leb_spec BACNET_COLOR_FADE_TIME_MIN value);
    destruct (Z.leb_spec value BACNET_COLOR_FADE_TIME_MAX); simpl;
    (split; [done |]); (split; [| intros; try done; lia]);
    intros Hok; try lia;
    unfold Keylist_Data in *; destruct (Object_List s); try done; simpl;
    by rewrite lookup_insert_eq.
Qed.

(** X18.  The writers of the two enumerations refuse a value at or above
    the limit of the enumeration: they return false and the device is as it
    was.  A value below the limit is stored and read back. *)
Theorem Enumeration_writers_check_the_limit (object_instance value : Z)
    (s : device) (pObject : object_data) :
  Keylist_Data (Object_List s) object_instance = Some pObject →
  (BACNET_COLOR_OPERATION_IN_PROGRESS_MAX ≤ value →
   Color_Temperature_In_Progress_Set object_instance value s = (false, s))
  ∧ (value < BACNET_COLOR_OPERATION_IN_PROGRESS_MAX →
     (Color_Temperature_In_Progress_Set object_instance value s).1 = true
     ∧ Color_Temperature_In_Progress
         (Color_Temperature_In_Progress_Set object_instance value s).2
         object_instance = value)
  ∧ (BACNET_COLOR_TRANSITION_MAX ≤ value →
     Color_Temperature_Transition_Set object_instance value s = (false, s))
  ∧ (value < BACNET_COLOR_TRANSITION_MAX →
     (Color_Temperature_Transition_Set object_instance value s).1 = true
     ∧ Color_Temperature_Transition
         (Color_Temperature_Transition_Set object_instance value s).2
         object_instance = value).
Proof.
  intros Hlive.
  unfold Color_Temperature_In_Progress_Set, Color_Temperature_In_Progress,
    Color_Temperature_Transition_Set, Color_Temperature_Transition.
  rewrite Hlive.
  destruct (Z.ltb_spec value BACNET_COLOR_OPERATION_IN_PROGRESS_MAX);
    destruct (Z.ltb_spec value BACNET_COLOR_TRANSITION_MAX);
    repeat split; intros; try lia; try done;
    unfold Keylist_Data in *; destruct (Object_List s); try done; simpl;
    by rewrite lookup_insert_eq.
Qed.

End Guarded_Writer_Properties.

(** ** What every sequence of calls keeps *)

Section Call_Properties.
Context {codec : Tag_Codec} {limits : Lighting_Limits} {lighting : Lighting}.

Lemma records_in_range_same_list (s s' : device) :
  Object_List s' = Object_List s → records_in_range s → records_in_range s'.
Proof. unfold records_in_range. by intros ->. Qed.

Lemma records_in_range_assign (s : device) (object_instance : Z)
    (pObject : object_data) :
  records_in_range s →
  record_in_range pObject →
  records_in_range
    (with_Object_List (pObject_assign (Object_List s) object_instance pObject)
       s).
Proof.
  unfold records_in_range, Keylist_Data. intros Hs Hp i q. simpl.
  destruct (Object_List s) as [m |]; [| done]. simpl.
  destruct (decide (i = object_instance)) as [-> | Hne].
  - rewrite lookup_insert_eq. by intros [= <-].
  - rewrite lookup_insert_ne by done. apply (Hs i q).
Qed.

Lemma records_in_range_insert (s : device) (m : gmap Z object_data)
    (object_instance : Z) (pObject : object_data) (s' : device) :
  Object_List s = Some m →
  Object_List s' = Some (<[object_instance := pObject]> m) →
  records_in_range s →
  record_in_range pObject →
  records_in_range s'.
Proof.
  unfold records_in_range, Keylist_Data. intros -> -> Hs Hp i q.
  destruct (decide (i = object_instance)) as [-> | Hne].
  - rewrite lookup_insert_eq. by intros [= <-].
  - rewrite lookup_insert_ne by done. apply (Hs i q).
Qed.

Lemma Inc_Database_Revision_iter_list (n : nat) (s : device) :
  Object_List (Nat.iter n Device_Inc_Database_Revision s) = Object_List s.
Proof. induction n; simpl; done. Qed.

Lemma step_keeps_records_in_range (c : call) (s : device) :
  BACNET_COLOR_TRANSITION_NONE < BACNET_COLOR_TRANSITION_MAX →
  records_in_range s →
  records_in_range (step c s).
Proof.
  intros Hnone Hs.
  assert (Hfield : ∀ i p, Keylist_Data (Object_List s) i = Some p →
                          record_in_range p) by exact Hs.
  destruct c; simpl.
  - (* init *) intros i p. simpl. by rewrite lookup_empty.
  - (* cleanup *) unfold Color_Temperature_Cleanup.
    destruct (Object_List s) as [m |] eqn:Hlist; [| done].
    intros i p. by rewrite Inc_Database_Revision_iter_list.
  - (* create *)
    destruct (Color_Temperature_Create mem object_instance s) as [r s'] eqn:Hc.
    simpl. destruct (Keylist_Data (Object_List s) r) as [q |] eqn:Hr.
    + assert (s' = s) as ->; [| done].
      unfold Color_Temperature_Create in Hc.
      repeat case_match; simplify_eq; try done.
      all: unfold Keylist_Data_Add in *; repeat case_match; simplify_eq.
    + destruct (Keylist_Data (Object_List s') r) as [q |] eqn:Hr'.
      * destruct (Create_added_record mem object_instance r s s' Hc Hr
                    ltac:(eauto)) as (m & Hlist & ->).
        apply (records_in_range_insert s m r created_object); try done.
        unfold record_in_range, created_object,
          BACNET_COLOR_OPERATION_IN_PROGRESS_IDLE,
          BACNET_COLOR_OPERATION_IN_PROGRESS_MAX. simpl.
        split; [lia |]. split; [done | by left].
      * assert (s' = s) as ->; [| done].
        unfold Color_Temperature_Create in Hc.
        repeat case_match; simplify_eq; try done.
        all: unfold Keylist_Data_Add in *; repeat case_match; simplify_eq;
          simpl in Hr'; by rewrite ?lookup_insert_eq in Hr'.
  - (* delete *)
    unfold Color_Temperature_Delete, Keylist_Data_Delete.
    destruct (Object_List s) as [m |] eqn:Hlist; [| done].
    destruct (m !! object_instance) eqn:Hlive; [| done]. simpl.
    intros i p. simpl. intros Hp. apply (Hs i p). rewrite Hlist. simpl.
    by apply lookup_delete_Some in Hp as [_ Hp].
  - (* name *)
    unfold Color_Temperature_Name_Set.
    destruct (Keylist_Data (Object_List s) object_instance) as [p |] eqn:Hp;
      [| done].
    destruct new_name as [name |]; [| done].
    destruct (Device_Valid_Object_Name s name) as [[t i] |].
    + by destruct (_ && _).
    + simpl. apply (records_in_range_same_list
                      (with_Object_List
                         (pObject_assign (Object_List s) object_instance
                            (set_Object_Name (Some name) p)) s)); [done |].
      apply records_in_range_assign; [done |]. apply (Hfield _ _ Hp).
  - (* description *)
    unfold Color_Temperature_Description_Set.
    destruct (Keylist_Data (Object_List s) object_instance) as [p |] eqn:Hp;
      [| done].
    destruct new_name as [text |]; [| done]. simpl.
    apply records_in_range_assign; [done |]. apply (Hfield _ _ Hp).
  - unfold Color_Temperature_Present_Value_Set.
    destruct (Keylist_Data (Object_List s) object_instance) as [p |] eqn:Hp;
      [| done]. simpl.
    apply records_in_range_assign; [done |]. apply (Hfield _ _ Hp).
  - unfold Color_Temperature_Tracking_Value_Set.
    destruct (Keylist_Data (Object_List s) object_instance) as [p |] eqn:Hp;
      [| done]. simpl.
    apply records_in_range_assign; [done |]. apply (Hfield _ _ Hp).
  - unfold Color_Temperature_Min_Pres_Value_Set.
    destruct (Keylist_Data (Object_List s) object_instance) as [p |] eqn:Hp;
      [| done]. simpl.
    apply records_in_range_assign; [done |]. apply (Hfield _ _ Hp).
  - unfold Color_Temperature_Max_Pres_Value_Set.
    destruct (Keylist_Data (Object_List s) object_instance) as [p |] eqn:Hp;
      [| done]. simpl.
    apply records_in_range_assign; [done |]. apply (Hfield _ _ Hp).
  - (* color command *)
    unfold Color_Temperature_Command_Set.
    destruct (Keylist_Data (Object_List s) object_instance) as [p |] eqn:Hp;
      [| done].
    destruct value as [command |]; [| done]. simpl.
    apply records_in_range_assign; [done |]. apply (Hfield _ _ Hp).
  - unfold Color_Temperature_In_Progress_Set.
    destruct (Keylist_Data (Object_List s) object_instance) as [p |] eqn:Hp;
      [| done].
    destruct (Z.ltb_spec value BACNET_COLOR_OPERATION_IN_PROGRESS_MAX);
      [| done]. simpl.
    apply records_in_range_assign; [done |].
    destruct (Hfield _ _ Hp) as (? & ? & ?). by split.
  - unfold Color_Temperature_Default_Color_Temperature_Set.
    destruct (Keylist_Data (Object_List s) object_instance) as [p |] eqn:Hp;
      [| done]. simpl.
    apply records_in_range_assign; [done |]. apply (Hfield _ _ Hp).
  - unfold Color_Temperature_Default_Fade_Time_Set.
    destruct (Keylist_Data (Object_List s) object_instance) as [p |] eqn:Hp;
      [| done].
    destruct (Z.eqb_spec value 0);
      destruct (Z.leb_spec BACNET_COLOR_FADE_TIME_MIN value);
      destruct (Z.leb_spec value BACNET_COLOR_FADE_TIME_MAX); simpl;
      try done; apply records_in_range_assign; try done;
      destruct (Hfield _ _ Hp) as (? & ? & ?); repeat split; simpl;
      try done; (by left) || (right; lia).
  - unfold Color_Temperature_Default_Ramp_Rate_Set.
    destruct (Keylist_Data (Object_List s) object_instance) as [p |] eqn:Hp;
      [| done]. simpl.
    apply records_in_range_assign; [done |]. apply (Hfield _ _ Hp).
  - unfold Color_Temperature_Default_Step_Increment_Set.
    destruct (Keylist_Data (Object_List s) object_instance) as [p |] eqn:Hp;
      [| done]. simpl.
    apply records_in_range_assign; [done |]. apply (Hfield _ _ Hp).
  - unfold Color_Temperature_Transition_Set.
    destruct (Keylist_Data (Object_List s) object_instance) as [p |] eqn:Hp;
      [| done].
    destruct (Z.ltb_spec value BACNET_COLOR_TRANSITION_MAX); [| done]. simpl.
    apply records_in_range_assign; [done |].
    destruct (Hfield _ _ Hp) as (? & ? & ?). by repeat split.
  - unfold Color_Temperature_Write_Enable.
    destruct (Keylist_Data (Object_List s) object_instance) as [p |] eqn:Hp;
      [| done].
    apply records_in_range_assign; [done |]. apply (Hfield _ _ Hp).
  - unfold Color_Temperature_Write_Disable.
    destruct (Keylist_Data (Object_List s) object_instance) as [p |] eqn:Hp;
      [| done].
    apply records_in_range_assign; [done |]. apply (Hfield _ _ Hp).
  - done.
  - destruct (Write_Property_device_cases wp_data s)
      as [-> | (m & p & v & s1 & Hlist & Hlive & -> & Hl1 & _)]; [done |].
    apply (records_in_range_insert s m (WP.object_instance wp_data)
             (set_Present_Value v p)); try done.
    apply (Hfield (WP.object_instance wp_data) p). by rewrite Hlist.
Qed.

(** X19.  The guards of the writers hold for good.  From a device whose
    records are in range, the empty store that init leaves for one, every
    sequence of calls of the functions of the file that change the device
    (init, cleanup, create, delete, the name and description writes, the
    writers of the present value, tracking value, minimum, maximum, color
    command, in-progress value, default color temperature, default fade
    time, default ramp rate, default step increment and transition, write
    enable and disable, the callback registration and the write handler),
    whatever the copy of color commands does, leaves every record with its
    in-progress and transition values below the limits of their
    enumerations and with a default fade time that is 0 or within the
    fade-time range.  The transition a create stores has to be below the
    limit for that. *)
Theorem run_keeps_records_in_range (calls : list call) (s : device) :
  BACNET_COLOR_TRANSITION_NONE < BACNET_COLOR_TRANSITION_MAX →
  records_in_range s →
  records_in_range (run calls s).
Proof.
  intros Hnone. unfold run. revert s.
  induction calls as [| c calls IH]; intros s Hs; simpl; [done |].
  apply IH. by apply step_keeps_records_in_range.
Qed.

End Call_Properties.

(** ** Names and descriptions *)

Lemma pretty_N_go_length (digits : nat) :
  ∀ (x : N) (s : string),
    (x < 10 ^ N.of_nat digits)%N →
    (String.length (pretty_N_go x s) ≤ digits + String.length s)%nat.
Proof.
  induction digits as [| digits IH]; intros x s Hx.
  - assert (x = 0%N) as -> by (simpl in Hx; lia).
    rewrite pretty_N_go_0. lia.
  - destruct (decide (x = 0%N)) as [-> | Hpos].
    + rewrite pretty_N_go_0. lia.
    + rewrite pretty_N_go_step by lia.
      etrans; [apply IH |]; [| simpl; lia].
      rewrite Nat2N.inj_succ, N.pow_succ_r' in Hx.
      apply N.Div0.div_lt_upper_bound. lia.
Qed.

Lemma pretty_N_length (x : N) :
  (x < 10 ^ 7)%N → (String.length (pretty x) ≤ 7)%nat.
Proof.
  intros Hx. unfold pretty, pretty_N.
  destruct (decide (x = 0%N)); [simpl; lia |].
  pose proof (pretty_N_go_length 7 x "" Hx) as Hlen. simpl in Hlen. lia.
Qed.

Lemma substring_all (s : string) :
  ∀ n : nat, (String.length s ≤ n)%nat → substring 0 n s = s.
Proof.
  induction s as [| c s IH]; intros n Hn; [by destruct n |].
  destruct n as [| n]; simpl in *; [lia |]. f_equal. apply IH. lia.
Qed.

(** The default name of an instance below ten million comes out of
    [snprintf] whole. *)
Lemma default_name_whole (object_instance : Z) :
  0 ≤ object_instance < 10 ^ 7 →
  String.substring 0 25
    ("COLOR-TEMPERATURE-" +:+ pretty (Z.to_N object_instance))
  = "COLOR-TEMPERATURE-" +:+ pretty (Z.to_N object_instance).
Proof.
  intros Hrange. apply substring_all.
  assert (Hlen : (String.length (pretty (Z.to_N object_instance)) ≤ 7)%nat)
    by (apply pretty_N_length; lia).
  simpl.
  change ("" +:+ pretty (Z.to_N object_instance))
    with (pretty (Z.to_N object_instance)).
  lia.
Qed.

(** X20.  Default names do not collide.  An instance with no name written
    to it, numbered up to [BACNET_MAX_INSTANCE], reads the name
    COLOR-TEMPERATURE- followed by its number in decimal (the 26-octet
    buffer cuts nothing off), and two such instances with the same name are
    the same instance. *)
Theorem Default_object_names_are_distinct (s : device) (i j : Z)
    (pi pj : object_data) :
  0 ≤ i ≤ BACNET_MAX_INSTANCE →
  0 ≤ j ≤ BACNET_MAX_INSTANCE →
  Keylist_Data (Object_List s) i = Some pi →
  Keylist_Data (Object_List s) j = Some pj →
  Object_Name pi = None →
  Object_Name pj = None →
  Color_Temperature_Object_Name s i
  = Some ("COLOR-TEMPERATURE-" +:+ pretty (Z.to_N i))
  ∧ (Color_Temperature_Object_Name s i = Color_Temperature_Object_Name s j →
     i = j).
Proof.
  unfold BACNET_MAX_INSTANCE. intros Hi Hj Hlive_i Hlive_j Hname_i Hname_j.
  unfold Color_Temperature_Object_Name.
  rewrite Hlive_i, Hlive_j, Hname_i, Hname_j.
  rewrite (default_name_whole i), (default_name_whole j) by lia.
  split; [done |].
  intros [= Heq].
  change (pretty (Z.to_N i) = pretty (Z.to_N j)) in Heq.
  apply (inj pretty) in Heq. lia.
Qed.

(** X21.  The name write changes the name of one record and the revision
    counter, or nothing.  When it returns false the device is as it was; a
    [NULL] name and a missing instance return false; every other instance
    keeps its record; the record of the addressed instance keeps every
    field but the name, which is the old or the new one; the registered
    callback, the indications made so far and the objects of the rest of
    the device are as they were; and either the whole device is as it was,
    or the write returned true, the revision counter went up by one and
    the name of the instance reads as the one written. *)
Theorem Name_Set_touches_the_name_only (object_instance : Z)
    (new_name : option string) (s : device) :
  ((Color_Temperature_Name_Set object_instance new_name s).1 = false →
   (Color_Temperature_Name_Set object_instance new_name s).2 = s)
  ∧ (new_name = None ∨ Keylist_Data (Object_List s) object_instance = None →
     Color_Temperature_Name_Set object_instance new_name s = (false, s))
  ∧ (∀ other : Z, other ≠ object_instance →
       Keylist_Data
         (Object_List (Color_Temperature_Name_Set object_instance new_name s).2)
         other
       = Keylist_Data (Object_List s) other)
  ∧ (∀ pObject : object_data,
       Keylist_Data (Object_List s) object_instance = Some pObject →
       ∃ pObject' : object_data,
         Keylist_Data
           (Object_List
              (Color_Temperature_Name_Set object_instance new_name s).2)
           object_instance
         = Some pObject'
         ∧ (Object_Name pObject' = Object_Name pObject
            ∨ Object_Name pObject' = new_name)
         ∧ Changed pObject' = Changed pObject
         ∧ Write_Enabled pObject' = Write_Enabled pObject
         ∧ Present_Value pObject' = Present_Value pObject
         ∧ Tracking_Value pObject' = Tracking_Value pObject
         ∧ Color_Command pObject' = Color_Command pObject
         ∧ In_Progress pObject' = In_Progress pObject
         ∧ Default_Color_Temperature pObject'
           = Default_Color_Temperature pObject
         ∧ Default_Fade_Time pObject' = Default_Fade_Time pObject
         ∧ Default_Ramp_Rate pObject' = Default_Ramp_Rate pObject
         ∧ Default_Step_Increment pObject' = Default_Step_Increment pObject
         ∧ Transition pObject' = Transition pObject
         ∧ Present_Value_Minimum pObject' = Present_Value_Minimum pObject
         ∧ Present_Value_Maximum pObject' = Present_Value_Maximum pObject
         ∧ Description pObject' = Description pObject)
  ∧ Color_Temperature_Write_Present_Value_Callback
      (Color_Temperature_Name_Set object_instance new_name s).2
    = Color_Temperature_Write_Present_Value_Callback s
  ∧ Present_Value_Indications
      (Color_Temperature_Name_Set object_instance new_name s).2
    = Present_Value_Indications s
  ∧ Device_Objects (Color_Temperature_Name_Set object_instance new_name s).2
    = Device_Objects s
  ∧ ((Color_Temperature_Name_Set object_instance new_name s).2 = s
     ∨ ((Color_Temperature_Name_Set object_instance new_name s).1 = true
        ∧ Database_Revision
            (Color_Temperature_Name_Set object_instance new_name s).2
          = to_uint32 (Database_Revision s + 1)
        ∧ is_Some new_name
        ∧ Color_Temperature_Object_Name
            (Color_Temperature_Name_Set object_instance new_name s).2
            object_instance
          = new_name)).
Proof.
  unfold Color_Temperature_Name_Set.
  destruct (Keylist_Data (Object_List s) object_instance) as [p |] eqn:Hlive.
  - destruct new_name as [name |].
    + destruct (Device_Valid_Object_Name s name) as [[t i] |].
      * destruct (_ && _); simpl;
          (split; [done |]); (split; [by intros [? | ?] |]);
          (split; [done |]);
          (split; [| by repeat split; try (by left)]);
          intros q Hq; exists q; repeat split; try done; try (by left);
          congruence.
      * simpl. unfold Color_Temperature_Object_Name, Keylist_Data in *.
        destruct (Object_List s) as [m |]; [| done]. simpl.
        split; [done |]. split; [by intros [? | ?] |]. split.
        { intros other Hne. by rewrite lookup_insert_ne. }
        split.
        { intros q [= <-]. eexists. rewrite lookup_insert_eq.
          split; [reflexivity |]. simpl. repeat split. by right. }
        repeat split; try done. right. rewrite lookup_insert_eq. simpl.
        repeat split; eauto.
    + simpl. split; [done |]. split; [done |]. split; [done |].
      split; [| by repeat split; try (by left)].
      intros q Hq. exists q. repeat split; try done; try (by left).
      congruence.
  - simpl. split; [done |]. split; [by destruct new_name |].
    split; [done |]. split; [intros q Hq; done |].
    by repeat split; try (by left).
Qed.

(** X22.  A description written is the description read, the name write's
    uniqueness scan and revision step play no part in it, and the reader
    gives the empty text, not [NULL], for a live instance with no
    description. *)
Theorem Description_round_trip (object_instance : Z) (text : string)
    (s : device) (pObject : object_data) :
  Keylist_Data (Object_List s) object_instance = Some pObject →
  (Color_Temperature_Description_Set object_instance (Some text) s).1 = true
  ∧ Color_Temperature_Description
      (Color_Temperature_Description_Set object_instance (Some text) s).2
      object_instance = Some text
  ∧ Database_Revision
      (Color_Temperature_Description_Set object_instance (Some text) s).2
    = Database_Revision s
  ∧ (Description pObject = None →
     Color_Temperature_Description s object_instance = Some ""%string)
  ∧ Color_Temperature_Description_Set object_instance None s = (false, s).
Proof.
  intros Hlive.
  unfold Color_Temperature_Description_Set, Color_Temperature_Description.
  rewrite Hlive. simpl. unfold Keylist_Data in *.
  destruct (Object_List s) as [m |]; [| done]. simpl.
  rewrite lookup_insert_eq. simpl. repeat split. by intros ->.
Qed.

(** ** The further properties on the sample devices *)

Lemma Delete_sample :
  (Color_Temperature_Delete 2 device_13).2 = device_13
  ∧ Keylist_Data (Object_List (Color_Temperature_Delete 2 device_123).2) 3
    = Keylist_Data (Object_List device_123) 3.
Proof.
  split.
  - apply (proj2 (proj2 (proj2 (Delete_removes_only_the_instance 2 device_13)))).
    vm_compute. reflexivity.
  - apply (proj1 (proj2 (proj2 (Delete_removes_only_the_instance 2
                                  device_123)))).
    lia.
Defined.

Lemma Create_then_Delete_sample :
  Color_Temperature_Delete 2
    (Color_Temperature_Create memory_available 2 device_1).2
  = (true,
     Device_Inc_Database_Revision (Device_Inc_Database_Revision device_1)).
Proof.
  apply (Create_then_Delete_restores memory_available 2 2 device_1).
  - vm_compute. reflexivity.
  - vm_compute. reflexivity.
  - vm_compute. eauto.
Defined.

Lemma Create_keeps_existing_sample :
  Keylist_Data
    (Object_List
       (Color_Temperature_Create memory_available 2 device_1_enabled).2) 1
  = Some (set_Write_Enabled true created_object).
Proof.
  apply (Create_keeps_existing_records memory_available 2 1 device_1_enabled).
  vm_compute. reflexivity.
Defined.

Lemma Cleanup_sample :
  Color_Temperature_Valid_Instance (Color_Temperature_Cleanup device_123) 1
  = false
  ∧ Database_Revision (Color_Temperature_Cleanup device_123) = 6.
Proof.
  assert (Hrev : Database_Revision device_123 = 3) by (vm_compute; reflexivity).
  destruct (Cleanup_releases_every_record device_123) as (Hgone & _ & Hsteps).
  { rewrite Hrev. lia. }
  split; [apply Hgone |]. rewrite Hsteps. vm_compute. reflexivity.
Defined.

Lemma Write_Property_all_or_nothing_sample :
  (Color_Temperature_Write_Property (codec := bacdcode) write_4000 device_1).2
  = device_1
  ∧ (Color_Temperature_Write_Property (codec := bacdcode) write_4000
       device_1_enabled).1.2 = write_4000.
Proof.
  split.
  - apply (proj1 (Write_Property_all_or_nothing (codec := bacdcode) write_4000
                    device_1)).
    vm_compute. reflexivity.
  - apply (proj2 (Write_Property_all_or_nothing (codec := bacdcode) write_4000
                    device_1_enabled)).
    vm_compute. reflexivity.
Defined.

Lemma Write_Property_touches_sample :
  Keylist_Data
    (Object_List
       (Color_Temperature_Write_Property (codec := bacdcode) write_4000
          (Color_Temperature_Write_Enable 1 device_123)).2) 3
  = Keylist_Data (Object_List (Color_Temperature_Write_Enable 1 device_123)) 3.
Proof.
  apply (proj1 (Write_Property_touches_Present_Value_only (codec := bacdcode)
                  write_4000 (Color_Temperature_Write_Enable 1 device_123))).
  intros Heq. vm_compute in Heq. discriminate.
Defined.

Lemma Write_Property_missing_instance_sample :
  Color_Temperature_Write_Property (codec := bacdcode) write_4000
    device_started
  = (false,
     WP.with_error ERROR_CLASS_OBJECT ERROR_CODE_UNKNOWN_OBJECT write_4000,
     device_started).
Proof.
  apply (Write_Property_missing_instance (codec := bacdcode) write_4000
           device_started 3 {| tag := 2; Unsigned_Int := 4000 |}).
  - vm_compute. reflexivity.
  - reflexivity.
  - reflexivity.
  - vm_compute. reflexivity.
  - lia.
  - reflexivity.
Defined.

Lemma Write_Property_refused_sample :
  Color_Temperature_Write_Property (codec := bacdcode)
    (write_request PROP_OBJECT_NAME BACNET_ARRAY_ALL octets_4000)
    device_1_enabled
  = (false,
     WP.with_error ERROR_CLASS_PROPERTY ERROR_CODE_WRITE_ACCESS_DENIED
       (write_request PROP_OBJECT_NAME BACNET_ARRAY_ALL octets_4000),
     device_1_enabled)
  ∧ Color_Temperature_Write_Property (codec := bacdcode)
      (write_request PROP_TRACKING_VALUE BACNET_ARRAY_ALL octets_4000)
      device_1_enabled
    = (false,
       WP.with_error ERROR_CLASS_PROPERTY ERROR_CODE_UNKNOWN_PROPERTY
         (write_request PROP_TRACKING_VALUE BACNET_ARRAY_ALL octets_4000),
       device_1_enabled).
Proof.
  split.
  - rewrite (Write_Property_refused_properties (codec := bacdcode)
               (write_request PROP_OBJECT_NAME BACNET_ARRAY_ALL octets_4000)
               device_1_enabled);
      [reflexivity | vm_compute; discriminate | reflexivity | discriminate].
  - rewrite (Write_Property_refused_properties (codec := bacdcode)
               (write_request PROP_TRACKING_VALUE BACNET_ARRAY_ALL octets_4000)
               device_1_enabled);
      [reflexivity | vm_compute; discriminate | reflexivity | discriminate].
Defined.

Lemma Write_Property_indicates_sample :
  Present_Value_Indications
    (Color_Temperature_Write_Property (codec := bacdcode) write_4000
       device_1_watched).2
  = [(1, 0, 4000)].
Proof.
  rewrite (Write_Property_indicates_once (codec := bacdcode) write_4000
             device_1_watched (set_Write_Enabled true created_object) 3
             {| tag := 2; Unsigned_Int := 4000 |});
    [reflexivity | vm_compute; reflexivity | reflexivity | reflexivity
    | reflexivity | vm_compute; reflexivity | lia | reflexivity].
Defined.

Lemma Read_Property_after_Write_Property_sample :
  Color_Temperature_Read_Property (codec := bacdcode)
    (Color_Temperature_Write_Property (codec := bacdcode) write_4000
       device_1_enabled).2
    stale_text (Some (read_request PROP_PRESENT_VALUE BACNET_ARRAY_ALL 50))
  = (3,
     Some (RP.with_application_data (octets_4000 ++ replicate 47 0)
             (read_request PROP_PRESENT_VALUE BACNET_ARRAY_ALL 50))).
Proof.
  rewrite (Read_Property_after_Write_Property (codec := bacdcode) write_4000
             device_1_enabled (set_Write_Enabled true created_object) 3
             {| tag := 2; Unsigned_Int := 4000 |} stale_text
             (read_request PROP_PRESENT_VALUE BACNET_ARRAY_ALL 50)
             (replicate 50 0));
    [reflexivity | vm_compute; reflexivity | reflexivity | reflexivity
    | reflexivity | vm_compute; reflexivity | lia | reflexivity | reflexivity
    | reflexivity | reflexivity | reflexivity | discriminate].
Defined.

Lemma Read_Property_unknown_property_sample :
  Color_Temperature_Read_Property (codec := bacdcode) device_1 stale_text
    (Some (read_request PROP_PRIORITY_ARRAY 3 50))
  = (BACNET_STATUS_ERROR,
     Some (RP.with_error ERROR_CLASS_PROPERTY ERROR_CODE_UNKNOWN_PROPERTY
             (read_request PROP_PRIORITY_ARRAY 3 50))).
Proof.
  apply (Read_Property_unknown_property (codec := bacdcode) device_1
           stale_text (read_request PROP_PRIORITY_ARRAY 3 50) (replicate 50 0)).
  - unfold Color_Temperature_Properties_Required,
      Color_Temperature_Properties_Optional. simpl.
    rewrite !elem_of_cons, elem_of_nil. intros Hin.
    repeat (destruct Hin as [Hin | Hin]; [discriminate |]). done.
  - reflexivity.
  - discriminate.
Defined.

Lemma Created_instance_refuses_writes_sample :
  Color_Temperature_Write_Property (codec := bacdcode) write_4000 device_1
  = (false,
     WP.with_error ERROR_CLASS_PROPERTY ERROR_CODE_WRITE_ACCESS_DENIED
       write_4000,
     device_1)
  ∧ (Color_Temperature_Write_Property (codec := bacdcode) write_4000
       (Color_Temperature_Write_Enable 1 device_1)).1.1 = true.
Proof.
  apply (Created_instance_refuses_writes (codec := bacdcode) memory_available 1
           device_started device_1 write_4000 3
           {| tag := 2; Unsigned_Int := 4000 |}).
  - reflexivity.
  - reflexivity.
  - vm_compute. eauto.
  - reflexivity.
  - reflexivity.
  - vm_compute. reflexivity.
  - lia.
  - reflexivity.
Defined.

Lemma Write_Enable_Disable_sample :
  Color_Temperature_Write_Disable 1 (Color_Temperature_Write_Enable 1 device_1)
  = device_1
  ∧ Color_Temperature_Write_Enable 7 device_1 = device_1.
Proof.
  split.
  - apply (proj1 (Write_Enable_Disable_round_trip 1 device_1)).
    vm_compute. reflexivity.
  - apply (proj2 (proj2 (Write_Enable_Disable_round_trip 7 device_1))).
    vm_compute. reflexivity.
Defined.

Lemma Present_Value_Set_sample :
  Color_Temperature_Write_Enabled device_1 1 = false
  ∧ Color_Temperature_Present_Value
      (Color_Temperature_Present_Value_Set 1 77 device_1).2 1 = 77
  ∧ Color_Temperature_Present_Value_Set 7 77 device_1 = (false, device_1).
Proof.
  split; [vm_compute; reflexivity |]. split.
  - apply (proj1 (Present_Value_Set_is_not_gated 1 77 device_1)).
    vm_compute. eauto.
  - apply (proj2 (Present_Value_Set_is_not_gated 7 77 device_1)).
    vm_compute. reflexivity.
Defined.

Lemma Default_Fade_Time_Set_sample :
  (Color_Temperature_Default_Fade_Time_Set (limits := standard_limits) 1 50
     device_1).1 = true
  ∧ (Color_Temperature_Default_Fade_Time_Set (limits := standard_limits) 1 50
       device_1).2 = device_1
  ∧ Color_Temperature_Default_Fade_Time
      (Color_Temperature_Default_Fade_Time_Set (limits := standard_limits) 1
         2000 device_1).2 1 = 2000.
Proof.
  assert (Hlive : Keylist_Data (Object_List device_1) 1 = Some created_object)
    by (vm_compute; reflexivity).
  destruct (Default_Fade_Time_Set_reports_success (limits := standard_limits)
              1 50 device_1 created_object Hlive) as (Htrue & _ & Hsame).
  destruct (Default_Fade_Time_Set_reports_success (limits := standard_limits)
              1 2000 device_1 created_object Hlive) as (_ & Hstored & _).
  split; [exact Htrue |]. split.
  - apply Hsame; simpl; lia.
  - apply Hstored. right. simpl. lia.
Defined.

Lemma Enumeration_writers_sample :
  Color_Temperature_In_Progress_Set 1 9 device_1 = (false, device_1)
  ∧ Color_Temperature_Transition_Set (limits := standard_limits) 1 3 device_1
    = (false, device_1)
  ∧ Color_Temperature_Transition
      (Color_Temperature_Transition_Set (limits := standard_limits) 1 2
         device_1).2 1 = 2.
Proof.
  assert (Hlive : Keylist_Data (Object_List device_1) 1 = Some created_object)
    by (vm_compute; reflexivity).
  destruct (Enumeration_writers_check_the_limit (limits := standard_limits)
              1 9 device_1 created_object Hlive) as (Hprogress & _).
  destruct (Enumeration_writers_check_the_limit (limits := standard_limits)
              1 3 device_1 created_object Hlive) as (_ & _ & Hrefused & _).
  destruct (Enumeration_writers_check_the_limit (limits := standard_limits)
              1 2 device_1 created_object Hlive) as (_ & _ & _ & Hstored).
  split; [| split].
  - apply Hprogress. unfold BACNET_COLOR_OPERATION_IN_PROGRESS_MAX. lia.
  - apply Hrefused. simpl. lia.
  - apply Hstored. simpl. lia.
Defined.

Lemma run_keeps_records_in_range_sample :
  records_in_range (limits := standard_limits)
    (run (codec := bacdcode) (limits := standard_limits)
       (lighting := structure_copy) sample_calls device_started).
Proof.
  apply (run_keeps_records_in_range (codec := bacdcode)
           (limits := standard_limits) (lighting := structure_copy)
           sample_calls device_started).
  - unfold BACNET_COLOR_TRANSITION_NONE. simpl. lia.
  - intros i p Hp. simpl in Hp. by rewrite lookup_empty in Hp.
Defined.

Lemma Default_object_names_sample :
  Color_Temperature_Object_Name device_13 3
  = Some "COLOR-TEMPERATURE-3"%string
  ∧ Color_Temperature_Object_Name device_13 1
    ≠ Color_Temperature_Object_Name device_13 3.
Proof.
  assert (H1 : Keylist_Data (Object_List device_13) 1 = Some created_object)
    by (vm_compute; reflexivity).
  assert (H3 : Keylist_Data (Object_List device_13) 3 = Some created_object)
    by (vm_compute; reflexivity).
  split.
  - pose proof (proj1 (Default_object_names_are_distinct device_13 3 1
                         created_object created_object
                         ltac:(unfold BACNET_MAX_INSTANCE; lia)
                         ltac:(unfold BACNET_MAX_INSTANCE; lia)
                         H3 H1 eq_refl eq_refl)) as Hname.
    rewrite Hname. vm_compute. reflexivity.
  - intros Heq.
    pose proof (proj2 (Default_object_names_are_distinct device_13 1 3
                         created_object created_object
                         ltac:(unfold BACNET_MAX_INSTANCE; lia)
                         ltac:(unfold BACNET_MAX_INSTANCE; lia)
                         H1 H3 eq_refl eq_refl) Heq) as Hsame.
    lia.
Defined.

Lemma Name_Set_touches_sample :
  Color_Temperature_Name_Set 1 None device_1 = (false, device_1)
  ∧ Keylist_Data
      (Object_List
         (Color_Temperature_Name_Set 1 (Some "Lamp"%string) device_123).2) 3
    = Keylist_Data (Object_List device_123) 3
  ∧ Present_Value_Indications
      (Color_Temperature_Name_Set 1 (Some "Lamp"%string) device_1_watched).2
    = Present_Value_Indications device_1_watched.
Proof.
  split; [| split].
  - apply (proj1 (proj2 (Name_Set_touches_the_name_only 1 None device_1))).
    left. reflexivity.
  - apply (proj1 (proj2 (proj2 (Name_Set_touches_the_name_only 1
                                  (Some "Lamp"%string) device_123)))).
    lia.
  - apply (Name_Set_touches_the_name_only 1 (Some "Lamp"%string)
             device_1_watched).
Defined.

Lemma Description_sample :
  Color_Temperature_Description
    (Color_Temperature_Description_Set 1 (Some "Hall"%string) device_1).2 1
  = Some "Hall"%string
  ∧ Color_Temperature_Description device_1 1 = Some ""%string.
Proof.
  assert (Hlive : Keylist_Data (Object_List device_1) 1 = Some created_object)
    by (vm_compute; reflexivity).
  destruct (Description_round_trip 1 "Hall" device_1 created_object Hlive)
    as (_ & Hread & _ & Hempty & _).
  split; [exact Hread | apply Hempty; reflexivity].
Defined.

Lemma Name_Set_fresh_name_sample :
  ∃ s' : device,
    Color_Temperature_Name_Set 1 (Some "Lamp"%string) device_1 = (true, s')
    ∧ Color_Temperature_Object_Name s' 1 = Some "Lamp"%string
    ∧ Database_Revision s' = to_uint32 (Database_Revision device_1 + 1).
Proof.
  apply (Name_Set_fresh_name 1 "Lamp" device_1 created_object).
  - vm_compute. reflexivity.
  - assert (Hobjects :
      Device_Objects device_1 ++ Color_Temperature_Objects device_1
      = [(OBJECT_COLOR_TEMPERATURE, 1, "COLOR-TEMPERATURE-1"%string)])
      by (vm_compute; reflexivity).
    rewrite Hobjects. intros t i Hin%list_elem_of_singleton. discriminate.
Defined.

(** ** The plain writers and the reach of every call *)

(** X24.  The writers without a test store what they are given and touch
    nothing else.  For each of the present-value, tracking-value, minimum,
    maximum, default color temperature, default ramp rate and default step
    increment writers: on an instance that is not in the list it returns
    false and the device is as it was; on a live instance it returns true,
    its own reader returns the value written, and every other reader of
    the instance (the ten numeric ones, name, description, color command
    and write-enabled flag), the changed flag, the records of the other
    instances, the set of valid instances, the revision counter, the
    registered callback, the indications made so far and the objects of
    the rest of the device are as they were. *)
Theorem Plain_writers_round_trip (w : plain_writer)
    (object_instance value : Z) (s : device) :
  (Keylist_Data (Object_List s) object_instance = None →
   plain_write w object_instance value s = (false, s))
  ∧ (is_Some (Keylist_Data (Object_List s) object_instance) →
     ∃ s' : device,
       plain_write w object_instance value s = (true, s')
       ∧ (∀ r : numeric_reader,
            reading r s' object_instance
            = if decide (r = reader_of w) then value
              else reading r s object_instance)
       ∧ Color_Temperature_Object_Name s' object_instance
         = Color_Temperature_Object_Name s object_instance
       ∧ Color_Temperature_Description s' object_instance
         = Color_Temperature_Description s object_instance
       ∧ Color_Temperature_Command s' object_instance
         = Color_Temperature_Command s object_instance
       ∧ Color_Temperature_Write_Enabled s' object_instance
         = Color_Temperature_Write_Enabled s object_instance
       ∧ Changed <$> Keylist_Data (Object_List s') object_instance
         = Changed <$> Keylist_Data (Object_List s) object_instance
       ∧ (∀ other : Z, other ≠ object_instance →
            Keylist_Data (Object_List s') other
            = Keylist_Data (Object_List s) other)
       ∧ (∀ i : Z,
            Color_Temperature_Valid_Instance s' i
            = Color_Temperature_Valid_Instance s i)
       ∧ Database_Revision s' = Database_Revision s
       ∧ Color_Temperature_Write_Present_Value_Callback s'
         = Color_Temperature_Write_Present_Value_Callback s
       ∧ Present_Value_Indications s' = Present_Value_Indications s
       ∧ Device_Objects s' = Device_Objects s).
Proof.
  split.
  - intros Hmissing.
    destruct w; simpl;
      unfold Color_Temperature_Present_Value_Set,
        Color_Temperature_Tracking_Value_Set,
        Color_Temperature_Min_Pres_Value_Set,
        Color_Temperature_Max_Pres_Value_Set,
        Color_Temperature_Default_Color_Temperature_Set,
        Color_Temperature_Default_Ramp_Rate_Set,
        Color_Temperature_Default_Step_Increment_Set;
      by rewrite Hmissing.
  - intros [pObject Hlive].
    destruct w; simpl;
      unfold Color_Temperature_Present_Value_Set,
        Color_Temperature_Tracking_Value_Set,
        Color_Temperature_Min_Pres_Value_Set,
        Color_Temperature_Max_Pres_Value_Set,
        Color_Temperature_Default_Color_Temperature_Set,
        Color_Temperature_Default_Ramp_Rate_Set,
        Color_Temperature_Default_Step_Increment_Set;
      rewrite Hlive; (eexists; split; [reflexivity |]);
      unfold Color_Temperature_Object_Name, Color_Temperature_Description,
        Color_Temperature_Command, Color_Temperature_Write_Enabled,
        Color_Temperature_Valid_Instance, Keylist_Data in *;
      (destruct (Object_List s) as [m |] eqn:Hlist; [| done]);
      simpl in *; rewrite ?Hlist; simpl;
      rewrite !lookup_insert_eq, Hlive; simpl;
      (split;
       [ intros r; destruct r; simpl;
         unfold Color_Temperature_Present_Value,
           Color_Temperature_Tracking_Value, Color_Temperature_Min_Pres_Value,
           Color_Temperature_Max_Pres_Value, Color_Temperature_In_Progress,
           Color_Temperature_Default_Color_Temperature,
           Color_Temperature_Default_Fade_Time,
           Color_Temperature_Default_Ramp_Rate,
           Color_Temperature_Default_Step_Increment,
           Color_Temperature_Transition, Keylist_Data;
         simpl; rewrite ?Hlist; simpl; rewrite lookup_insert_eq, ?Hlive;
         reflexivity
       | repeat split; try done;
         [ intros other Hne; by rewrite lookup_insert_ne
         | intros i; destruct (decide (i = object_instance)) as [-> | Hne];
           [ by rewrite lookup_insert_eq, Hlive
           | by rewrite lookup_insert_ne ] ] ]).
Qed.

Lemma Valid_Instance_assign (s : device) (object_instance : Z)
    (pObject pObject' : object_data) :
  Keylist_Data (Object_List s) object_instance = Some pObject →
  ∀ i : Z,
    Color_Temperature_Valid_Instance
      (with_Object_List
         (pObject_assign (Object_List s) object_instance pObject') s) i
    = Color_Temperature_Valid_Instance s i.
Proof.
  unfold Color_Temperature_Valid_Instance, Keylist_Data. intros Hlive i.
  simpl. destruct (Object_List s) as [m |]; [| done]. simpl.
  destruct (decide (i = object_instance)) as [-> | Hne].
  - by rewrite lookup_insert_eq, Hlive.
  - by rewrite lookup_insert_ne.
Qed.

Lemma Inc_Database_Revision_iter_objects (n : nat) (s : device) :
  Device_Objects (Nat.iter n Device_Inc_Database_Revision s)
  = Device_Objects s.
Proof. induction n; simpl; done. Qed.

Section Reach_Of_Calls.
Context {codec : Tag_Codec} {limits : Lighting_Limits} {lighting : Lighting}.

(** X25.  What a call can reach, over the functions of the file that change
    the device.  Only init, cleanup, create and delete change which
    instances are valid: the name and description writes, the eleven
    property writers (present value, tracking value, minimum, maximum,
    color command, in-progress value, default color temperature, default
    fade time, default ramp rate, default step increment, transition),
    write enable and disable, the callback registration and the write
    handler leave the valid instances as they were.  Only cleanup, create,
    delete and the name write move the revision counter: init and all the
    others leave it as it was.  No call changes the objects that the rest
    of the device holds. *)
Theorem step_reach (c : call) (s : device) :
  match c with
  | Call_Init | Call_Cleanup | Call_Create _ _ | Call_Delete _ => True
  | _ =>
      ∀ i : Z,
        Color_Temperature_Valid_Instance (step c s) i
        = Color_Temperature_Valid_Instance s i
  end
  ∧ match c with
    | Call_Cleanup | Call_Create _ _ | Call_Delete _ | Call_Name_Set _ _ =>
        True
    | _ => Database_Revision (step c s) = Database_Revision s
    end
  ∧ Device_Objects (step c s) = Device_Objects s.
Proof.
  destruct c; simpl.
  - done.
  - split; [done |]. split; [done |]. unfold Color_Temperature_Cleanup.
    destruct (Object_List s); [| done].
    by rewrite Inc_Database_Revision_iter_objects.
  - split; [done |]. split; [done |]. unfold Color_Temperature_Create.
    repeat case_match; simplify_eq; done.
  - split; [done |]. split; [done |]. unfold Color_Temperature_Delete.
    repeat case_match; simplify_eq; done.
  - unfold Color_Temperature_Name_Set.
    destruct (Keylist_Data (Object_List s) object_instance) as [p |] eqn:Hp;
      [| done].
    destruct new_name as [name |]; [| done].
    destruct (Device_Valid_Object_Name s name) as [[t i] |].
    + by destruct (_ && _).
    + simpl. split; [| done]. intros i.
      apply (Valid_Instance_assign s object_instance p); done.
  - unfold Color_Temperature_Description_Set.
    destruct (Keylist_Data (Object_List s) object_instance) as [p |] eqn:Hp;
      [| done].
    destruct new_name as [text |]; [| done]. simpl. split; [| done].
    by apply (Valid_Instance_assign s object_instance p).
  - unfold Color_Temperature_Present_Value_Set.
    destruct (Keylist_Data (Object_List s) object_instance) as [p |] eqn:Hp;
      [| done]. simpl. split; [| done].
    by apply (Valid_Instance_assign s object_instance p).
  - unfold Color_Temperature_Tracking_Value_Set.
    destruct (Keylist_Data (Object_List s) object_instance) as [p |] eqn:Hp;
      [| done]. simpl. split; [| done].
    by apply (Valid_Instance_assign s object_instance p).
  - unfold Color_Temperature_Min_Pres_Value_Set.
    destruct (Keylist_Data (Object_List s) object_instance) as [p |] eqn:Hp;
      [| done]. simpl. split; [| done].
    by apply (Valid_Instance_assign s object_instance p).
  - unfold Color_Temperature_Max_Pres_Value_Set.
    destruct (Keylist_Data (Object_List s) object_instance) as [p |] eqn:Hp;
      [| done]. simpl. split; [| done].
    by apply (Valid_Instance_assign s object_instance p).
  - unfold Color_Temperature_Command_Set.
    destruct (Keylist_Data (Object_List s) object_instance) as [p |] eqn:Hp;
      [| done].
    destruct value as [command |]; [| done]. simpl. split; [| done].
    by apply (Valid_Instance_assign s object_instance p).
  - unfold Color_Temperature_In_Progress_Set.
    destruct (Keylist_Data (Object_List s) object_instance) as [p |] eqn:Hp;
      [| done].
    destruct (value <? _); [| done]. simpl. split; [| done].
    by apply (Valid_Instance_assign s object_instance p).
  - unfold Color_Temperature_Default_Color_Temperature_Set.
    destruct (Keylist_Data (Object_List s) object_instance) as [p |] eqn:Hp;
      [| done]. simpl. split; [| done].
    by apply (Valid_Instance_assign s object_instance p).
  - unfold Color_Temperature_Default_Fade_Time_Set.
    destruct (Keylist_Data (Object_List s) object_instance) as [p |] eqn:Hp;
      [| done].
    destruct (_ || _); [| done]. simpl. split; [| done].
    by apply (Valid_Instance_assign s object_instance p).
  - unfold Color_Temperature_Default_Ramp_Rate_Set.
    destruct (Keylist_Data (Object_List s) object_instance) as [p |] eqn:Hp;
      [| done]. simpl. split; [| done].
    by apply (Valid_Instance_assign s object_instance p).
  - unfold Color_Temperature_Default_Step_Increment_Set.
    destruct (Keylist_Data (Object_List s) object_instance) as [p |] eqn:Hp;
      [| done]. simpl. split; [| done].
    by apply (Valid_Instance_assign s object_instance p).
  - unfold Color_Temperature_Transition_Set.
    destruct (Keylist_Data (Object_List s) object_instance) as [p |] eqn:Hp;
      [| done].
    destruct (value <? _); [| done]. simpl. split; [| done].
    by apply (Valid_Instance_assign s object_instance p).
  - unfold Color_Temperature_Write_Enable.
    destruct (Keylist_Data (Object_List s) object_instance) as [p |] eqn:Hp;
      [| done]. simpl. split; [| done].
    by apply (Valid_Instance_assign s object_instance p).
  - unfold Color_Temperature_Write_Disable.
    destruct (Keylist_Data (Object_List s) object_instance) as [p |] eqn:Hp;
      [| done]. simpl. split; [| done].
    by apply (Valid_Instance_assign s object_instance p).
  - done.
  - destruct (Write_Property_device_cases wp_data s)
      as [-> | (m & p & v & s1 & Hlist & Hlive & -> & Hl1 & Hrev & Hobjects
                & _)]; [done |].
    split; [| done]. intros i. unfold Color_Temperature_Valid_Instance.
    rewrite Hl1, Hlist. simpl.
    destruct (decide (i = WP.object_instance wp_data)) as [-> | Hne].
    + by rewrite lookup_insert_eq, Hlive.
    + by rewrite lookup_insert_ne.
Qed.

End Reach_Of_Calls.

Lemma Plain_writers_sample :
  ∃ s' : device,
    Color_Temperature_Max_Pres_Value_Set 1 6500 device_1 = (true, s')
    ∧ Color_Temperature_Max_Pres_Value s' 1 = 6500
    ∧ Color_Temperature_Present_Value s' 1
      = Color_Temperature_Present_Value device_1 1.
Proof.
  destruct (proj2 (Plain_writers_round_trip Writer_Max_Pres_Value 1 6500
                     device_1)
              ltac:(vm_compute; eauto))
    as (s' & Hwrite & Hread & _).
  exists s'. split; [exact Hwrite |]. split.
  - exact (Hread Reader_Max_Pres_Value).
  - exact (Hread Reader_Present_Value).
Defined.
